(** * ng-packagr, [src/lib/steps/rollup.ts]

    A shallow embedding of the two decision functions of the rollup build
    step, [externalModuleIdStrategy] and [umdModuleIdStrategy], and of the
    diagnostic handler that [rollup] hands to the bundler as [onwarn].

    Conventions of the embedding.
    - A JavaScript string is a [string]: a sequence of code units, here the
      code units below 256.  Among those the line terminators of the
      regular-expression dot are LF (10) and CR (13); the two others, U+2028
      and U+2029, are not code units of this alphabet, and every statement
      about strings is a statement about strings of code units below 256.
    - [string[]] is [list string]; the override table
      [{ [key: string]: string }] is a plain object: a [gmap string string]
      holds its own properties, and a property read that finds no own
      property goes on to [Object.prototype].
    - [path] is a module of the Node runtime, not of this repository: the
      classifier is stated over the interface [PathModule], with the two
      implementations Node ships ([posix], [win32]) as instances.
    - The logging collaborator is a sink of log entries; code that logs is a
      computation in a small monad threading that sink and a completion. *)

From Stdlib Require Import ZArith Ascii String List Bool Lia.
From stdpp Require Import base option gmap strings.

Local Open Scope Z_scope.

(* string append computes under [simpl] in this development *)
Local Arguments String.append !_ _ / : simpl nomatch.

(* ===================================================================== *)
(** * Definitions *)
(* ===================================================================== *)

(** ** String primitives of the JavaScript runtime used by the source *)

Module JSString.

(** [strip search s]: the rest of [s] after its prefix [search], when
    [search] is a prefix of [s]. *)
Fixpoint strip (search s : string) : option string :=
  match search, s with
  | EmptyString, _ => Some s
  | String _ _, EmptyString => None
  | String a search', String b s' =>
      if Ascii.eqb a b then strip search' s' else None
  end.

(** [s.startsWith(search)] *)
Definition startsWith (s search : string) : bool :=
  match strip search s with Some _ => true | None => false end.

(** [s.indexOf(search)]: the index of the first occurrence, [-1] when
    there is none. *)
Fixpoint indexOf (s search : string) : Z :=
  if startsWith s search then 0
  else match s with
       | EmptyString => -1
       | String _ s' =>
           let i := indexOf s' search in
           if i <? 0 then -1 else i + 1
       end.

(** [s.replace(search, by)] with a string [search] and a replacement
    without dollar patterns: only the FIRST occurrence is replaced. *)
Fixpoint replace (s search by_ : string) : string :=
  match strip search s with
  | Some rest => by_ +:+ rest
  | None => match s with
            | EmptyString => EmptyString
            | String c s' => String c (replace s' search by_)
            end
  end.

(** The replacement the source does not perform: every occurrence of the
    character [c] turned into [d] (what [s.replace(/c/g, d)] computes).
    Used only to state what full separator conversion would be. *)
Fixpoint replaceAllChar (s : string) (c d : ascii) : string :=
  match s with
  | EmptyString => EmptyString
  | String a s' =>
      String (if Ascii.eqb a c then d else a) (replaceAllChar s' c d)
  end.

(** [s] contains the character [c]. *)
Fixpoint hasChar (s : string) (c : ascii) : bool :=
  match s with
  | EmptyString => false
  | String a s' => Ascii.eqb a c || hasChar s' c
  end.

(** Number of occurrences of the character [c] in [s]. *)
Fixpoint countChar (s : string) (c : ascii) : nat :=
  match s with
  | EmptyString => 0%nat
  | String a s' =>
      ((if Ascii.eqb a c then 1 else 0) + countChar s' c)%nat
  end.

End JSString.

(** ** The [path] module of the runtime *)

(** [path.isAbsolute] is all the source uses of [path] in the classifier. *)
Class PathModule := { isAbsolute : string -> bool }.

Module Path.

Definition isPathSeparator (c : ascii) : bool :=
  Ascii.eqb c "/"%char || Ascii.eqb c "\"%char.

Definition isWindowsDeviceRoot (c : ascii) : bool :=
  let n := nat_of_ascii c in
  ((65 <=? n) && (n <=? 90) || (97 <=? n) && (n <=? 122))%nat.

(** [path.posix.isAbsolute]: non-empty and first code unit a slash. *)
Definition posix_isAbsolute (p : string) : bool :=
  match p with
  | String c _ => Ascii.eqb c "/"%char
  | EmptyString => false
  end.

(** [path.win32.isAbsolute]: a leading separator, or a drive letter, a
    colon and a separator. *)
Definition win32_isAbsolute (p : string) : bool :=
  match p with
  | EmptyString => false
  | String c rest =>
      isPathSeparator c ||
      match rest with
      | String c1 (String c2 _) =>
          isWindowsDeviceRoot c && Ascii.eqb c1 ":"%char && isPathSeparator c2
      | _ => false
      end
  end.

Definition posix : PathModule := {| isAbsolute := posix_isAbsolute |}.
Definition win32 : PathModule := {| isAbsolute := win32_isAbsolute |}.

End Path.

(** ** External-module classifier *)

Section Classifier.
Context `{path : PathModule}.

(** [embedded.some(x => x === moduleId)] *)
Definition some_eq (embedded : list string) (moduleId : string) : bool :=
  existsb (fun x => String.eqb x moduleId) embedded.

(** [externalModuleIdStrategy(moduleId, embedded)].  The disjunction is
    evaluated left to right and short-circuits, as [||] does. *)
Definition externalModuleIdStrategy
    (moduleId : string) (embedded : list string) : bool :=
  if isAbsolute moduleId
     || JSString.startsWith moduleId "."
     || JSString.startsWith moduleId "/"
     || (0 <=? JSString.indexOf moduleId "commonjsHelpers")
     || some_eq embedded moduleId
  then false
  else true.

(** The five not-external conditions, in the order the source tests them. *)
Definition notExternalConditions
    (moduleId : string) (embedded : list string) : list bool :=
  [ isAbsolute moduleId;
    JSString.startsWith moduleId ".";
    JSString.startsWith moduleId "/";
    0 <=? JSString.indexOf moduleId "commonjsHelpers";
    some_eq embedded moduleId ].

End Classifier.

(** The conditions numbered [i] and [j] (from 0, in the order of the
    source) hold together for some identifier and embedded list. *)
Definition holdTogether `{path : PathModule} (i j : nat) : Prop :=
  exists (moduleId : string) (embedded : list string),
    nth i (notExternalConditions moduleId embedded) false = true /\
    nth j (notExternalConditions moduleId embedded) false = true.

(** The two pairs of conditions that concern a leading dot: with an
    absolute path (0 and 1), with a leading slash (1 and 2). *)
Definition dotPair (i j : nat) : bool :=
  match i, j with
  | 0, 1 | 1, 0 | 1, 2 | 2, 1 => true
  | _, _ => false
  end%nat.

(** How many conditions of a list hold. *)
Definition holding (conds : list bool) : nat :=
  length (filter (fun b => b = true) conds).

(** ** Regular expressions

    The fragment of the regular-expression language the source uses, with
    the backtracking semantics of [RegExp.prototype.exec]: alternatives are
    tried greedily and in order, a continuation decides whether the rest of
    the pattern matches. *)

Module RegExp.

(** Character classes: the dot and a negated one-character class. *)
Inductive cls :=
| AnyChar               (* .     *)
| NotChar (c : ascii).  (* [^c]  *)

(** The line terminators among the code units below 256: LF and CR.  The
    dot of the source's patterns stops at U+2028 and U+2029 as well, which
    no string of this alphabet contains. *)
Definition isLineTerminator (c : ascii) : bool :=
  Ascii.eqb c "010"%char || Ascii.eqb c "013"%char.

Definition cls_match (k : cls) (c : ascii) : bool :=
  match k with
  | AnyChar => negb (isLineTerminator c)
  | NotChar d => negb (Ascii.eqb c d)
  end.

Inductive regex :=
| Bos                     (* ^        *)
| Eos                     (* $        *)
| Lit (l : string)        (* literal characters *)
| Seq (r1 r2 : regex)     (* r1 r2    *)
| Opt (r : regex)         (* r?       *)
| Star (k : cls)          (* k*       *)
| Plus (k : cls)          (* k+       *)
| Group (r : regex).      (* ( r ), the capture group 1 *)

(** Matcher state: index in the input, input left, capture 1. *)
Record state := mkState
  { index : nat; rest : string; capture : option string }.

Definition cont (A : Type) : Type := state -> option A.

Fixpoint has_group (r : regex) : bool :=
  match r with
  | Group _ => true
  | Seq r1 r2 => has_group r1 || has_group r2
  | Opt r => has_group r
  | _ => false
  end.

(** Greedy [k*]: take one more character when possible, give it back when
    the continuation fails. *)
Fixpoint star {A} (k : cls) (i : nat) (s : string) (cap : option string)
    (c : cont A) : option A :=
  match s with
  | String a s' =>
      if cls_match k a then
        match star k (S i) s' cap c with
        | Some v => Some v
        | None => c (mkState i s cap)
        end
      else c (mkState i s cap)
  | EmptyString => c (mkState i s cap)
  end.

Fixpoint run {A} (r : regex) (x : state) (c : cont A) : option A :=
  match r with
  | Bos => if (index x =? 0)%nat then c x else None
  | Eos => match rest x with EmptyString => c x | String _ _ => None end
  | Lit l =>
      match JSString.strip l (rest x) with
      | Some s' => c (mkState (index x + String.length l) s' (capture x))
      | None => None
      end
  | Seq r1 r2 => run r1 x (fun y => run r2 y c)
  | Opt r =>
      (* captures of the quantified atom are cleared on entry; an
         iteration that consumed nothing is rejected *)
      let x0 := if has_group r then mkState (index x) (rest x) None else x in
      match run r x0 (fun y => if (index y =? index x)%nat then None else c y) with
      | Some v => Some v
      | None => c x
      end
  | Star k => star k (index x) (rest x) (capture x) c
  | Plus k =>
      match rest x with
      | String a s' =>
          if cls_match k a then star k (S (index x)) s' (capture x) c else None
      | EmptyString => None
      end
  | Group r =>
      run r x (fun y =>
        c (mkState (index y) (rest y)
             (Some (String.substring 0 (index y - index x) (rest x)))))
  end.

(** The array [exec] returns: element 0 is the matched text, element 1
    the capture ([None] is [undefined]). *)
Record MatchArray := mkMatch { at0 : string; at1 : option string }.

(** One match attempt per start index, from the left. *)
Fixpoint exec_from (r : regex) (i : nat) (s : string) : option MatchArray :=
  match run r (mkState i s None)
          (fun y => Some (mkMatch (String.substring 0 (index y - i) s) (capture y))) with
  | Some m => Some m
  | None =>
      match s with
      | String _ s' => exec_from r (S i) s'
      | EmptyString => None
      end
  end.

(** [r.exec(s)] for a pattern without flags: null is [None]. *)
Definition exec (r : regex) (s : string) : option MatchArray :=
  exec_from r 0 s.

(** [r.test(s)] *)
Definition test (r : regex) (s : string) : bool :=
  match exec r s with Some _ => true | None => false end.

(** The longest prefix of [s] made of characters of the class [k], and
    what follows it: what a greedy [k*] takes when nothing after it makes
    it give characters back. *)
Fixpoint takeCls (k : cls) (s : string) : string :=
  match s with
  | String a s' => if cls_match k a then String a (takeCls k s') else EmptyString
  | EmptyString => EmptyString
  end.

Fixpoint dropCls (k : cls) (s : string) : string :=
  match s with
  | String a s' => if cls_match k a then dropCls k s' else s
  | EmptyString => EmptyString
  end.

End RegExp.

(** ** Global-name resolver *)

Module Patterns.
Import RegExp.

(** [/^\@angular\/platform-browser-dynamic( \/? .* )/], group spaced out *)
Definition platformBrowserDynamic : regex :=
  Seq Bos (Seq (Lit "@angular/platform-browser-dynamic")
               (Group (Seq (Opt (Lit "/")) (Star AnyChar)))).

(** [/^\@angular\/platform-browser( \/? .* )/], group spaced out *)
Definition platformBrowser : regex :=
  Seq Bos (Seq (Lit "@angular/platform-browser")
               (Group (Seq (Opt (Lit "/")) (Star AnyChar)))).

(** [/^\@angular\/(.+)/] *)
Definition angular : regex :=
  Seq Bos (Seq (Lit "@angular/") (Group (Plus AnyChar))).

(** [/^rxjs\/(add\/)?observable/] *)
Definition rxObservable : regex :=
  Seq Bos (Seq (Lit "rxjs/") (Seq (Opt (Group (Lit "add/"))) (Lit "observable"))).

(** [/^rxjs\/scheduler/] *)
Definition rxScheduler : regex := Seq Bos (Lit "rxjs/scheduler").

(** [/^rxjs\/symbol/] *)
Definition rxSymbol : regex := Seq Bos (Lit "rxjs/symbol").

(** [/^rxjs\/(add\/)?operator/] *)
Definition rxOperator : regex :=
  Seq Bos (Seq (Lit "rxjs/") (Seq (Opt (Group (Lit "add/"))) (Lit "operator"))).

(** [/^rxjs\/[^\/]+$/] *)
Definition rxRoot : regex :=
  Seq Bos (Seq (Lit "rxjs/") (Seq (Plus (NotChar "/")) Eos)).

End Patterns.

(** What a property read on the override table gives, and so what the
    resolver can return: a string, or a value the table inherits from
    [Object.prototype], which is a function or an object, never a string. *)
Inductive JSValue :=
| Str (s : string)
| Inherited (key : string).

Coercion Str : string >-> JSValue.

Module ObjectPrototype.

(** The property names of [Object.prototype]: eleven functions, and the
    accessor [__proto__] that gives the prototype itself. *)
Definition keys : list string :=
  [ "constructor"; "__defineGetter__"; "__defineSetter__"; "hasOwnProperty";
    "__lookupGetter__"; "__lookupSetter__"; "isPrototypeOf";
    "propertyIsEnumerable"; "toString"; "valueOf"; "__proto__";
    "toLocaleString" ].

Definition has (key : string) : bool :=
  existsb (String.eqb key) keys.

End ObjectPrototype.

(** [o[key]] on a plain object with the own properties [o]: the own
    property when there is one, else what [Object.prototype] has under the
    key, else [undefined] ([None]). *)
Definition get (o : gmap string string) (key : string) : option JSValue :=
  match o !! key with
  | Some v => Some (Str v)
  | None => if ObjectPrototype.has key then Some (Inherited key) else None
  end.

(** A value read from the override table used as a condition: [undefined]
    and the empty string are falsy, every other string and every function
    or object is truthy. *)
Definition truthy (v : option JSValue) : bool :=
  match v with
  | None | Some (Str EmptyString) => false
  | Some (Str (String _ _)) | Some (Inherited _) => true
  end.

(** A capture spliced into a template literal. *)
Definition interpolate (v : option string) : string :=
  match v with Some s => s | None => "undefined" end.

(** [umdModuleIdStrategy(moduleId, umdModuleIds)].  The assignment in the
    condition makes the value read from the table the condition: the branch
    is taken when it is truthy, and returns that value, string or not. *)
Definition umdModuleIdStrategy
    (moduleId : string) (umdModuleIds : gmap string string) : JSValue :=
  let nameProvided := get umdModuleIds moduleId in
  if truthy nameProvided then default (Str "") nameProvided else
  match RegExp.exec Patterns.platformBrowserDynamic moduleId with
  | Some regMatch =>
      Str (JSString.replace
        ("ng.platformBrowserDynamic" +:+ interpolate (RegExp.at1 regMatch)) "/" ".")
  | None =>
  match RegExp.exec Patterns.platformBrowser moduleId with
  | Some regMatch =>
      Str (JSString.replace
        ("ng.platformBrowser" +:+ interpolate (RegExp.at1 regMatch)) "/" ".")
  | None =>
  match RegExp.exec Patterns.angular moduleId with
  | Some regMatch =>
      Str (JSString.replace ("ng." +:+ interpolate (RegExp.at1 regMatch)) "/" ".")
  | None =>
  if RegExp.test Patterns.rxObservable moduleId then Str "Rx.Observable"
  else if RegExp.test Patterns.rxScheduler moduleId then Str "Rx.Scheduler"
  else if RegExp.test Patterns.rxSymbol moduleId then Str "Rx.Symbol"
  else if RegExp.test Patterns.rxOperator moduleId then Str "Rx.Observable.prototype"
  else if RegExp.test Patterns.rxRoot moduleId then Str "Rx"
  else Str ""
  end end end.

(** The identifier matches one of the built-in pattern rules. *)
Definition matchesPattern (moduleId : string) : bool :=
  existsb (fun r => RegExp.test r moduleId)
    [ Patterns.platformBrowserDynamic; Patterns.platformBrowser;
      Patterns.angular; Patterns.rxObservable; Patterns.rxScheduler;
      Patterns.rxSymbol; Patterns.rxOperator; Patterns.rxRoot ].

(** ** The logging collaborator and the diagnostic handler *)

Module Log.
Inductive level := Debug | Warn.
Record entry := mkEntry { lvl : level; text : string }.
End Log.

(** How a call ends: it returns, or it throws. *)
Inductive completion (A : Type) :=
| Normal (a : A)
| Thrown (e : string).
Arguments Normal {A} a.
Arguments Thrown {A} e.

(** Computations that write to the log sink. *)
Definition Eff (A : Type) : Type :=
  list Log.entry -> completion A * list Log.entry.

Definition ret {A} (a : A) : Eff A := fun sink => (Normal a, sink).

Definition bind {A B} (m : Eff A) (f : A -> Eff B) : Eff B :=
  fun sink =>
    match m sink with
    | (Normal a, sink') => f a sink'
    | (Thrown e, sink') => (Thrown e, sink')
    end.

Notation "m >>> k" := (bind m (fun _ => k))
  (at level 62, right associativity).

(** Modelled from the spec: [log.warn] of [../util/log], which is not among
    the sources.  The logging collaborator exposes a warn-level message
    sink: the call appends one warn-level entry and returns. *)
Definition log_warn (msg : string) : Eff unit :=
  fun sink => (Normal tt, sink ++ [Log.mkEntry Log.Warn msg]).

(** A diagnostic of the bundler; [code] may be absent. *)
Record RollupWarning := mkWarning
  { code : option string; message : string }.

(** [warning.code === 'THIS_IS_UNDEFINED'] *)
Definition strict_eq (v : option string) (s : string) : bool :=
  match v with
  | Some c => String.eqb c s
  | None => false
  end.

(** The [onwarn] handler of [rollup]. *)
Definition onwarn (warning : RollupWarning) : Eff unit :=
  if strict_eq (code warning) "THIS_IS_UNDEFINED" then ret tt
  else log_warn (message warning).

(** The log entry a forwarded diagnostic leaves. *)
Definition warnEntry (w : RollupWarning) : Log.entry :=
  Log.mkEntry Log.Warn (message w).

(** The diagnostic is the one the handler drops. *)
Definition isThisIsUndefined (w : RollupWarning) : bool :=
  strict_eq (code w) "THIS_IS_UNDEFINED".

(** The bundler reporting its diagnostics one after the other. *)
Fixpoint onwarn_each (warnings : list RollupWarning) : Eff unit :=
  match warnings with
  | [] => ret tt
  | w :: ws => onwarn w >>> onwarn_each ws
  end.

(** ** The hooks [rollup] hands to the bundler *)

Record RollupOptions := mkOptions
  { moduleName : string;
    entry : string;
    format : string;
    dest : string;
    umdModuleIds : option (gmap string string);
    embedded : option (list string) }.

Section Hooks.
Context `{path : PathModule}.

(** [external: moduleId => externalModuleIdStrategy(moduleId, opts.embedded || [])] *)
Definition external (opts : RollupOptions) (moduleId : string) : bool :=
  externalModuleIdStrategy moduleId (default [] (embedded opts)).

(** [globals: moduleId => umdModuleIdStrategy(moduleId, opts.umdModuleIds || {})] *)
Definition globals (opts : RollupOptions) (moduleId : string) : JSValue :=
  umdModuleIdStrategy moduleId (default ∅ (umdModuleIds opts)).

End Hooks.

(** ** The bundler, and the build steps that drive it *)

Module Bundler.

Inductive Plugin :=
| nodeResolve (jsnext module_ : bool)   (* nodeResolve({ jsnext, module }) *)
| commonJs.                             (* commonJs() *)

(** The argument of [__rollup.rollup]. *)
Record InputOptions := mkInput
  { context : string;
    external : string -> bool;
    input : string;
    plugins : list Plugin;
    onwarn : RollupWarning -> Eff unit }.

(** The argument of [bundle.write]. *)
Record OutputOptions := mkOutput
  { name : string;
    file : string;
    format : string;
    banner : string;
    globals : string -> JSValue;
    sourcemap : bool }.

End Bundler.

(** The bundling library is not part of this repository: its two
    operations are parameters.  Each works on the log sink (the bundler
    reports its diagnostics through [onwarn]) and on what lies outside the
    program, the file system among it; each returns or throws. *)
Class BundlerLib := mkBundlerLib
  { Outside : Type;
    Bundle : Type;
    VERSION : string;
    rollup_rollup :
      Bundler.InputOptions -> list Log.entry * Outside ->
      completion Bundle * (list Log.entry * Outside);
    bundle_write :
      Bundle -> Bundler.OutputOptions -> list Log.entry * Outside ->
      completion unit * (list Log.entry * Outside) }.

(** [path.resolve(...segments)], of the runtime like [path.isAbsolute]. *)
Class PathResolve := { resolve : list string -> string }.

Module BuildStep.

(** Modelled from the spec: the shared build context of
    [../domain/build-step], which is not among the sources.  It contains
    the staging-directory paths and an entry-point descriptor with module
    identifiers and an embedded-module list; the records have the fields
    this file reads or writes.  The two bundle files are unset until the
    step that produces them has run. *)
Record Artefacts := mkArtefacts
  { stageDir : string;
    es2015EntryFile : string;
    fesm5BundleFile : string;
    fesm15BundleFile : option string;
    umdBundleFile : option string }.

Record EntryPoint := mkEntryPoint
  { moduleId : string;
    umdModuleId : string;
    flatModuleFile : string;
    umdModuleIds : gmap string string;
    embedded : list string }.

End BuildStep.

(** Modelled from the spec: [log.debug] of [../util/log], the debug-level
    message sink of the logging collaborator. *)
Definition log_debug (msg : string) : Eff unit :=
  fun sink => (Normal tt, sink ++ [Log.mkEntry Log.Debug msg]).

Section Orchestrator.
Context `{path : PathModule} `{lib : BundlerLib} `{res : PathResolve}.

(** What a build step runs in: the log sink, the outside, and the
    artefacts object the steps of the pipeline share and update in place. *)
Record World := mkWorld
  { sink : list Log.entry;
    outside : Outside;
    artefacts : BuildStep.Artefacts }.

(** Asynchronous code: every [await] is a sequencing point, a rejection
    ends the function. *)
Definition IO (A : Type) : Type := World -> completion A * World.

Definition io_ret {A} (a : A) : IO A := fun w => (Normal a, w).

Definition io_bind {A B} (m : IO A) (f : A -> IO B) : IO B :=
  fun w =>
    match m w with
    | (Normal a, w') => f a w'
    | (Thrown e, w') => (Thrown e, w')
    end.

Notation "'await' x <- m ; k" := (io_bind m (fun x => k))
  (at level 10, x name, m at level 100, k at level 200).

(** A call into the logging collaborator. *)
Definition logging {A} (m : Eff A) : IO A :=
  fun w =>
    let (r, s) := m (sink w) in
    (r, mkWorld s (outside w) (artefacts w)).

(** A call into the bundling library, which holds no reference to the
    artefacts object. *)
Definition calling {A}
    (f : list Log.entry * Outside -> completion A * (list Log.entry * Outside)) : IO A :=
  fun w =>
    let (r, so) := f (sink w, outside w) in
    (r, mkWorld (fst so) (snd so) (artefacts w)).

Definition readArtefacts : IO BuildStep.Artefacts :=
  fun w => (Normal (artefacts w), w).

Definition updateArtefacts (f : BuildStep.Artefacts -> BuildStep.Artefacts) : IO unit :=
  fun w => (Normal tt, mkWorld (sink w) (outside w) (f (artefacts w))).

(** The object literal [rollup] passes to [__rollup.rollup]. *)
Definition inputOptions (opts : RollupOptions) : Bundler.InputOptions :=
  {| Bundler.context := "this";
     Bundler.external := external opts;
     Bundler.input := entry opts;
     Bundler.plugins := [Bundler.nodeResolve true true; Bundler.commonJs];
     Bundler.onwarn := onwarn |}.

(** The object literal [rollup] passes to [bundle.write]. *)
Definition outputOptions (opts : RollupOptions) : Bundler.OutputOptions :=
  {| Bundler.name := moduleName opts;
     Bundler.file := dest opts;
     Bundler.format := format opts;
     Bundler.banner := "";
     Bundler.globals := globals opts;
     Bundler.sourcemap := true |}.

(** The line [rollup] logs first. *)
Definition debugLine (opts : RollupOptions) : string :=
  "rollup (v" +:+ VERSION +:+ ") " +:+ entry opts +:+ " to " +:+ dest opts
  +:+ " (" +:+ format opts +:+ ")".

(** [rollup(opts)] *)
Definition rollup (opts : RollupOptions) : IO unit :=
  await _ <- logging (log_debug (debugLine opts));
  await bundle <- calling (rollup_rollup (inputOptions opts));
  calling (bundle_write bundle (outputOptions opts)).

(** The options [flattenToFesm15] calls [rollup] with. *)
Definition fesm15Options
    (a : BuildStep.Artefacts) (entryPoint : BuildStep.EntryPoint) (fesm15File : string)
    : RollupOptions :=
  {| moduleName := BuildStep.moduleId entryPoint;
     entry := BuildStep.es2015EntryFile a;
     format := "es";
     dest := fesm15File;
     umdModuleIds := None;
     embedded := Some (BuildStep.embedded entryPoint) |}.

Definition setFesm15BundleFile (f : string) (a : BuildStep.Artefacts) : BuildStep.Artefacts :=
  {| BuildStep.stageDir := BuildStep.stageDir a;
     BuildStep.es2015EntryFile := BuildStep.es2015EntryFile a;
     BuildStep.fesm5BundleFile := BuildStep.fesm5BundleFile a;
     BuildStep.fesm15BundleFile := Some f;
     BuildStep.umdBundleFile := BuildStep.umdBundleFile a |}.

(** [flattenToFesm15({ artefacts, entryPoint, pkg })] *)
Definition flattenToFesm15 (entryPoint : BuildStep.EntryPoint) : IO unit :=
  await a <- readArtefacts;
  let fesm15File :=
    resolve [BuildStep.stageDir a; "esm2015";
             BuildStep.flatModuleFile entryPoint +:+ ".js"] in
  await _ <- rollup (fesm15Options a entryPoint fesm15File);
  updateArtefacts (setFesm15BundleFile fesm15File).

(** The options [flattenToUmd] calls [rollup] with; the spread copies the
    entry point's override table. *)
Definition umdOptions
    (a : BuildStep.Artefacts) (entryPoint : BuildStep.EntryPoint) (umdFile : string)
    : RollupOptions :=
  {| moduleName := BuildStep.umdModuleId entryPoint;
     entry := BuildStep.fesm5BundleFile a;
     format := "umd";
     dest := umdFile;
     umdModuleIds := Some (BuildStep.umdModuleIds entryPoint);
     embedded := Some (BuildStep.embedded entryPoint) |}.

Definition setUmdBundleFile (f : string) (a : BuildStep.Artefacts) : BuildStep.Artefacts :=
  {| BuildStep.stageDir := BuildStep.stageDir a;
     BuildStep.es2015EntryFile := BuildStep.es2015EntryFile a;
     BuildStep.fesm5BundleFile := BuildStep.fesm5BundleFile a;
     BuildStep.fesm15BundleFile := BuildStep.fesm15BundleFile a;
     BuildStep.umdBundleFile := Some f |}.

(** [flattenToUmd({ artefacts, entryPoint, pkg })] *)
Definition flattenToUmd (entryPoint : BuildStep.EntryPoint) : IO unit :=
  await a <- readArtefacts;
  let umdFile :=
    resolve [BuildStep.stageDir a; "bundles";
             BuildStep.flatModuleFile entryPoint +:+ ".umd.js"] in
  await _ <- rollup (umdOptions a entryPoint umdFile);
  updateArtefacts (setUmdBundleFile umdFile).

End Orchestrator.

(** A small bundler to run the steps on: it rejects an empty entry,
    otherwise reports two diagnostics through the handler it was given and
    returns the entry as the bundle; writing records the destination and
    rejects an empty one. *)
Module Stub.

Definition diagnostics : list RollupWarning :=
  [ mkWarning (Some "THIS_IS_UNDEFINED") "The 'this' keyword is equivalent to 'undefined'";
    mkWarning (Some "UNRESOLVED_IMPORT") "'lodash' is imported by index.js" ].

Fixpoint report (handler : RollupWarning -> Eff unit) (ws : list RollupWarning)
    : Eff unit :=
  match ws with
  | [] => ret tt
  | w :: ws' => handler w >>> report handler ws'
  end.

Definition build (cfg : Bundler.InputOptions) (so : list Log.entry * list string)
    : completion string * (list Log.entry * list string) :=
  match Bundler.input cfg with
  | EmptyString => (Thrown "Could not resolve entry", so)
  | String _ _ =>
      match report (Bundler.onwarn cfg) diagnostics (fst so) with
      | (Normal _, s) => (Normal (Bundler.input cfg), (s, snd so))
      | (Thrown e, s) => (Thrown e, (s, snd so))
      end
  end.

Definition write (bundle : string) (out : Bundler.OutputOptions)
    (so : list Log.entry * list string)
    : completion unit * (list Log.entry * list string) :=
  match Bundler.file out with
  | EmptyString => (Thrown "You must specify output.file", so)
  | String _ _ => (Normal tt, (fst so, snd so ++ [Bundler.file out]))
  end.

Definition lib : BundlerLib :=
  {| Outside := list string;
     Bundle := string;
     VERSION := "0.52.0";
     rollup_rollup := build;
     bundle_write := write |}.

(** Segments joined by slashes, enough for absolute staging directories. *)
Definition res : PathResolve :=
  {| resolve := fun segments => String.concat "/" segments |}.

Definition entryPoint : BuildStep.EntryPoint :=
  {| BuildStep.moduleId := "@foo/bar";
     BuildStep.umdModuleId := "foo.bar";
     BuildStep.flatModuleFile := "foo-bar";
     BuildStep.umdModuleIds := {["lodash" := "_"]};
     BuildStep.embedded := ["moment"] |}.

Definition staged : BuildStep.Artefacts :=
  {| BuildStep.stageDir := "/tmp/stage";
     BuildStep.es2015EntryFile := "/tmp/stage/out/index.js";
     BuildStep.fesm5BundleFile := "/tmp/stage/esm5/foo-bar.js";
     BuildStep.fesm15BundleFile := None;
     BuildStep.umdBundleFile := None |}.

(** The same staging area before the entry file exists. *)
Definition unstaged : BuildStep.Artefacts :=
  {| BuildStep.stageDir := "/tmp/stage";
     BuildStep.es2015EntryFile := "";
     BuildStep.fesm5BundleFile := "";
     BuildStep.fesm15BundleFile := None;
     BuildStep.umdBundleFile := None |}.

End Stub.

(* ===================================================================== *)
(** * Properties *)
(* ===================================================================== *)

(** ** Strings *)

Section StringFacts.
Import JSString.

Lemma strip_app (l s : string) : strip l (l +:+ s) = Some s.
Proof.
  induction l as [|a l IH]; simpl; [reflexivity|].
  rewrite Ascii.eqb_refl. exact IH.
Qed.

Lemma strip_spec (l s t : string) : strip l s = Some t <-> s = l +:+ t.
Proof.
  split.
  - revert s. induction l as [|a l IH]; intros s H; simpl in *.
    + congruence.
    + destruct s as [|b s]; [discriminate|].
      destruct (Ascii.eqb_spec a b) as [->|]; [|discriminate].
      f_equal. apply IH, H.
  - intros ->. apply strip_app.
Qed.

Lemma startsWith_app (l s : string) : startsWith (l +:+ s) l = true.
Proof. unfold startsWith. rewrite strip_app. reflexivity. Qed.

(** A string starts with a one-character string exactly when that
    character is its first. *)
Lemma startsWith_char (s : string) (c : ascii) :
  startsWith s (String c EmptyString) = true <->
  exists s', s = String c s'.
Proof.
  unfold startsWith. destruct s as [|b s]; simpl.
  - split; [discriminate | intros [s' H]; discriminate].
  - destruct (Ascii.eqb_spec c b) as [->|Hne].
    + split; eauto.
    + split; [discriminate | intros [s' H]; congruence].
Qed.

(** The first character decides: two different one-character prefixes
    never both match. *)
Lemma startsWith_char_excl (s : string) (c d : ascii) :
  c <> d ->
  startsWith s (String c EmptyString) = true ->
  startsWith s (String d EmptyString) = false.
Proof.
  intros Hne [s' ->]%startsWith_char.
  unfold startsWith; simpl.
  destruct (Ascii.eqb_spec d c); congruence.
Qed.

Lemma indexOf_lower (s search : string) : -1 <= indexOf s search.
Proof.
  induction s as [|a s IH]; simpl.
  - destruct (startsWith _ _); lia.
  - destruct (startsWith _ _); [lia|].
    destruct (Z.ltb_spec (indexOf s search) 0); lia.
Qed.

(** [indexOf] finds an occurrence wherever there is one. *)
Lemma indexOf_found (pre search post : string) :
  0 <= indexOf (pre +:+ search +:+ post) search.
Proof.
  induction pre as [|a pre IH]; simpl.
  - destruct (search +:+ post) eqn:E; simpl.
    + destruct (startsWith _ _) eqn:F; [lia|].
      pose proof (startsWith_app search post) as G. rewrite E in G.
      congruence.
    + destruct (startsWith _ _) eqn:F; [lia|].
      pose proof (startsWith_app search post) as G. rewrite E in G.
      congruence.
  - destruct (startsWith _ _); [lia|].
    destruct (Z.ltb_spec (indexOf (pre +:+ search +:+ post) search) 0); lia.
Qed.

(** A string without the character is left alone by [replace]. *)
Lemma replace_absent (s : string) (c : ascii) (by_ : string) :
  hasChar s c = false -> replace s (String c EmptyString) by_ = s.
Proof.
  induction s as [|a s IH]; simpl; [reflexivity|].
  intros [Ha Hs]%orb_false_iff.
  rewrite Ascii.eqb_sym, Ha. f_equal. exact (IH Hs).
Qed.

(** [replace] rewrites the first occurrence only: what follows it is
    copied unchanged. *)
Lemma replace_first (pre post : string) (c d : ascii) :
  hasChar pre c = false ->
  replace (pre +:+ String c post) (String c EmptyString) (String d EmptyString)
  = pre +:+ String d post.
Proof.
  induction pre as [|a pre IH]; simpl.
  - rewrite Ascii.eqb_refl. reflexivity.
  - intros [Ha Hs]%orb_false_iff.
    rewrite Ascii.eqb_sym, Ha. f_equal. exact (IH Hs).
Qed.

Lemma countChar_app (s t : string) (c : ascii) :
  countChar (s +:+ t) c = (countChar s c + countChar t c)%nat.
Proof. induction s as [|a s IH]; simpl; [reflexivity | rewrite IH; lia]. Qed.

Lemma countChar_absent (s : string) (c : ascii) :
  hasChar s c = false <-> countChar s c = 0%nat.
Proof.
  induction s as [|a s IH]; simpl; [tauto|].
  rewrite orb_false_iff, IH.
  destruct (Ascii.eqb a c); simpl; split; try lia; intros []; try discriminate; auto.
Qed.

(** Every string splits at its first occurrence of a character. *)
Lemma split_first (s : string) (c : ascii) :
  hasChar s c = true ->
  exists pre post, s = pre +:+ String c post /\ hasChar pre c = false.
Proof.
  induction s as [|a s IH]; simpl; [discriminate|].
  destruct (Ascii.eqb_spec a c) as [->|Hne]; simpl.
  - intros _. exists EmptyString, s. split; reflexivity.
  - intros (pre & post & -> & Hpre)%IH.
    exists (String a pre), post. split; [reflexivity|]. simpl.
    destruct (Ascii.eqb_spec a c); [contradiction | exact Hpre].
Qed.

(** Replacing one occurrence removes exactly one: of [n] separators,
    [n - 1] are left. *)
Lemma replace_count (s : string) (c d : ascii) :
  c <> d ->
  countChar (replace s (String c EmptyString) (String d EmptyString)) c
  = Nat.pred (countChar s c).
Proof.
  intros Hne. destruct (hasChar s c) eqn:E.
  - destruct (split_first _ _ E) as (pre & post & -> & Hpre).
    rewrite replace_first by exact Hpre.
    rewrite !countChar_app. simpl.
    apply countChar_absent in Hpre. rewrite Hpre, Ascii.eqb_refl.
    destruct (Ascii.eqb_spec d c); [congruence | simpl; lia].
  - rewrite replace_absent by exact E.
    apply countChar_absent in E. rewrite E. reflexivity.
Qed.

End StringFacts.

(** ** External-module classifier *)

Section ClassifierFacts.
Context `{path : PathModule}.

Lemma some_eq_In (embedded : list string) (moduleId : string) :
  some_eq embedded moduleId = true <-> In moduleId embedded.
Proof.
  unfold some_eq. rewrite existsb_exists. split.
  - intros (x & Hx & ->%String.eqb_eq). exact Hx.
  - intros H. exists moduleId. split; [exact H | apply String.eqb_refl].
Qed.

Lemma some_eq_not_In (embedded : list string) (moduleId : string) :
  some_eq embedded moduleId = false <-> ~ In moduleId embedded.
Proof.
  rewrite <- some_eq_In. destruct (some_eq embedded moduleId); split; congruence.
Qed.

(** The classifier answers "not external" exactly when one of the five
    conditions holds, whichever it is. *)
Lemma externalModuleIdStrategy_false (moduleId : string) (embedded : list string) :
  externalModuleIdStrategy moduleId embedded = false <->
  Exists (fun b => b = true) (notExternalConditions moduleId embedded).
Proof.
  unfold externalModuleIdStrategy, notExternalConditions.
  rewrite !Exists_cons, Exists_nil.
  destruct (isAbsolute moduleId), (JSString.startsWith moduleId "."),
    (JSString.startsWith moduleId "/"),
    (0 <=? JSString.indexOf moduleId "commonjsHelpers"),
    (some_eq embedded moduleId); simpl; intuition congruence.
Qed.

Lemma holding_Exists (conds : list bool) :
  (1 <= holding conds)%nat <-> Exists (fun b => b = true) conds.
Proof.
  unfold holding. induction conds as [|b conds IH].
  - rewrite Exists_nil. simpl. lia.
  - rewrite Exists_cons, <- IH. destruct b.
    + rewrite filter_cons_True by reflexivity. simpl. intuition lia.
    + rewrite filter_cons_False by discriminate. intuition congruence.
Qed.

(** C1.  An identifier that is an absolute path, or starts with a dot, or
    starts with a slash, is classified not external, whatever the
    embedded-module set and whatever implementation of [path.isAbsolute]
    the runtime provides. *)
Theorem local_ids_not_external (moduleId : string) (embedded : list string) :
  isAbsolute moduleId = true \/
  JSString.startsWith moduleId "." = true \/
  JSString.startsWith moduleId "/" = true ->
  externalModuleIdStrategy moduleId embedded = false.
Proof.
  intros H. unfold externalModuleIdStrategy.
  destruct H as [-> | [-> | ->]]; rewrite ?orb_true_r; reflexivity.
Qed.

(** C2.  A member of the embedded-module set is classified not external,
    also when none of the other not-external conditions holds for it. *)
Theorem embedded_not_external (moduleId : string) (embedded : list string) :
  In moduleId embedded ->
  externalModuleIdStrategy moduleId embedded = false.
Proof.
  intros H%some_eq_In. unfold externalModuleIdStrategy.
  rewrite H, orb_true_r. reflexivity.
Qed.

(** C3, amended.  An identifier that is not an absolute path, starts with
    neither a dot nor a slash, does not contain [commonjsHelpers] and is
    not in the embedded-module set is classified external. *)
Theorem other_ids_external (moduleId : string) (embedded : list string) :
  isAbsolute moduleId = false ->
  JSString.startsWith moduleId "." = false ->
  JSString.startsWith moduleId "/" = false ->
  JSString.indexOf moduleId "commonjsHelpers" < 0 ->
  ~ In moduleId embedded ->
  externalModuleIdStrategy moduleId embedded = true.
Proof.
  intros Habs Hdot Hslash Hhelpers Hemb%some_eq_not_In.
  unfold externalModuleIdStrategy.
  rewrite Habs, Hdot, Hslash, Hemb.
  destruct (Z.leb_spec 0 (JSString.indexOf moduleId "commonjsHelpers")); [lia|].
  reflexivity.
Qed.

End ClassifierFacts.

(** ** Regular expressions *)

Section RegExpFacts.
Import RegExp.

Lemma strip_app_l (l1 l2 s : string) :
  JSString.strip (l1 +:+ l2) s =
  match JSString.strip l1 s with
  | Some t => JSString.strip l2 t
  | None => None
  end.
Proof.
  revert s. induction l1 as [|a l1 IH]; intros s; simpl.
  - destruct l2; reflexivity.
  - destruct s as [|b s]; [reflexivity|].
    destruct (Ascii.eqb a b); [apply IH | reflexivity].
Qed.

Lemma take_drop (k : cls) (s : string) : takeCls k s +:+ dropCls k s = s.
Proof.
  induction s as [|a s IH]; simpl; [reflexivity|].
  destruct (cls_match k a); simpl; [f_equal; exact IH | reflexivity].
Qed.

Lemma substring_take (k : cls) (s : string) :
  String.substring 0 (String.length (takeCls k s)) s = takeCls k s.
Proof.
  induction s as [|a s IH]; simpl; [reflexivity|].
  destruct (cls_match k a); simpl; [f_equal; exact IH | reflexivity].
Qed.

(** No line terminator in [s]: the dot matches all of it. *)
Lemma take_all (k : cls) (s : string) :
  takeCls k s = s <-> dropCls k s = EmptyString.
Proof.
  induction s as [|a s IH]; simpl; [tauto|].
  destruct (cls_match k a).
  - rewrite <- IH. split; [intros [=]; assumption | intros ->; reflexivity].
  - split; discriminate.
Qed.

(** A greedy [k*] followed by a continuation that accepts the longest
    run takes the longest run. *)
Lemma star_greedy {A} (k : cls) (i : nat) (s : string) (cap : option string)
    (c : cont A) (v : A) :
  c (mkState (i + String.length (takeCls k s)) (dropCls k s) cap) = Some v ->
  star k i s cap c = Some v.
Proof.
  revert i. induction s as [|a s IH]; intros i; simpl.
  - rewrite Nat.add_0_r. auto.
  - destruct (cls_match k a); simpl.
    + rewrite <- Nat.add_succ_comm. intros H. rewrite (IH _ H). reflexivity.
    + rewrite Nat.add_0_r. auto.
Qed.

(** A pattern that begins with [^] cannot match from a later index. *)
Lemma exec_from_anchored (r : regex) (i : nat) (s : string) :
  exec_from (Seq Bos r) (S i) s = None.
Proof.
  revert i. induction s as [|a s IH]; intros i; simpl; [reflexivity | apply IH].
Qed.

(** So [exec] of an anchored pattern is the one attempt at index 0. *)
Lemma exec_anchored (r : regex) (s : string) :
  exec (Seq Bos r) s =
  run r (mkState 0 s None)
    (fun y => Some (mkMatch (String.substring 0 (index y - 0) s) (capture y))).
Proof.
  unfold exec. destruct s as [|a s]; simpl.
  - destruct (run r _ _); reflexivity.
  - rewrite exec_from_anchored. destruct (run r _ _); reflexivity.
Qed.

(** An anchored pattern whose literal prefix is not a prefix of the input
    does not match. *)
Lemma exec_literal_mismatch (l : string) (r : regex) (s : string) :
  JSString.strip l s = None -> exec (Seq Bos (Seq (Lit l) r)) s = None.
Proof. intros H. rewrite exec_anchored. simpl. rewrite H. reflexivity. Qed.

Lemma test_literal_mismatch (l : string) (r : regex) (s : string) :
  JSString.strip l s = None -> test (Seq Bos (Seq (Lit l) r)) s = false.
Proof. intros H. unfold test. rewrite exec_literal_mismatch by exact H. reflexivity. Qed.

Lemma substring_app_l (l s : string) (n : nat) :
  String.substring 0 (String.length l + n) (l +:+ s)
  = l +:+ String.substring 0 n s.
Proof. induction l as [|b l IH]; simpl; [reflexivity | f_equal; exact IH]. Qed.

(** [/^l(.+)/] on [l ++ rem]: the capture is the longest run without a
    line terminator, and the match needs that run to be non-empty. *)
Lemma exec_literal_plus (l rem : string) :
  exec (Seq Bos (Seq (Lit l) (Group (Plus AnyChar)))) (l +:+ rem) =
  match takeCls AnyChar rem with
  | EmptyString => None
  | String _ _ as cap => Some (mkMatch (l +:+ cap) (Some cap))
  end.
Proof.
  rewrite exec_anchored. cbn [run index rest capture]. rewrite strip_app.
  cbn [run index rest capture].
  destruct rem as [|a rem]; [reflexivity|].
  cbn [takeCls].
  destruct (cls_match AnyChar a) eqn:Ha; [|reflexivity].
  erewrite star_greedy; [reflexivity|]. cbn [index rest capture].
  set (n := String.length (takeCls AnyChar rem)).
  replace (S (0 + String.length l) + n - 0)%nat
    with (String.length l + S n)%nat by lia.
  replace (S (0 + String.length l) + n - (0 + String.length l))%nat
    with (S n) by lia.
  rewrite substring_app_l. simpl. subst n. rewrite substring_take.
  reflexivity.
Qed.

(** [/^l( \/? .* )/] (group spaced out) on [l ++ rem]: it always
    matches, and the capture is the longest run without a line terminator
    (a leading slash is part of that run). *)
Lemma exec_literal_rest (l rem : string) :
  exec (Seq Bos (Seq (Lit l) (Group (Seq (Opt (Lit "/")) (Star AnyChar)))))
    (l +:+ rem)
  = Some (mkMatch (l +:+ takeCls AnyChar rem) (Some (takeCls AnyChar rem))).
Proof.
  rewrite exec_anchored. cbn [run index rest capture]. rewrite strip_app.
  cbn [run index rest capture has_group].
  assert (forall i s,
    String.substring 0 (i + String.length (takeCls AnyChar s) - i) s
    = takeCls AnyChar s) as Hcap.
  { intros i s. replace (i + String.length (takeCls AnyChar s) - i)%nat
      with (String.length (takeCls AnyChar s)) by lia. apply substring_take. }
  destruct (JSString.strip "/" rem) as [t|] eqn:Hs.
  - apply strip_spec in Hs. subst rem.
    cbn [String.length].
    replace (0 + String.length l + 1 =? 0 + String.length l)%nat with false
      by (symmetry; apply Nat.eqb_neq; lia).
    erewrite star_greedy; [reflexivity|]. cbn [index rest capture].
    set (n := String.length (takeCls AnyChar t)).
    replace (0 + String.length l + 1 + n - 0)%nat
      with (String.length l + S n)%nat by lia.
    replace (0 + String.length l + 1 + n - (0 + String.length l))%nat
      with (S n) by lia.
    rewrite substring_app_l. simpl. subst n. rewrite substring_take.
    reflexivity.
  - erewrite star_greedy; [reflexivity|]. cbn [index rest capture].
    rewrite Hcap.
    replace (0 + String.length l + String.length (takeCls AnyChar rem) - 0)%nat
      with (String.length l + String.length (takeCls AnyChar rem))%nat by lia.
    rewrite substring_app_l, substring_take. reflexivity.
Qed.

(** The engine on the patterns of the source. *)
Example angular_needs_a_remainder :
  exec Patterns.angular "@angular/" = None.
Proof. reflexivity. Qed.

Example dynamic_capture :
  exec Patterns.platformBrowserDynamic "@angular/platform-browser-dynamic/testing"
  = Some (mkMatch "@angular/platform-browser-dynamic/testing" (Some "/testing")).
Proof. reflexivity. Qed.

Example optional_group_skipped :
  exec Patterns.rxObservable "rxjs/observable/of"
  = Some (mkMatch "rxjs/observable" None).
Proof. reflexivity. Qed.

Example optional_group_taken :
  exec Patterns.rxOperator "rxjs/add/operator/map"
  = Some (mkMatch "rxjs/add/operator" (Some "add/")).
Proof. reflexivity. Qed.

Example root_is_one_segment :
  test Patterns.rxRoot "rxjs/Subject" = true /\
  test Patterns.rxRoot "rxjs/util/pipe" = false /\
  test Patterns.rxRoot "rxjs/" = false /\
  test Patterns.rxRoot "xrxjs/Subject" = false.
Proof. repeat split. Qed.

End RegExpFacts.

(** ** Global-name resolver *)

Section ResolverFacts.
Import RegExp.

(** A read on the empty table finds what the prototype has, and nothing
    under any other key. *)
Lemma get_empty_nonkey (key : string) :
  ObjectPrototype.has key = false -> get ∅ key = None.
Proof. intros H. unfold get. rewrite lookup_empty, H. reflexivity. Qed.

Lemma get_nonkey (o : gmap string string) (key : string) :
  o !! key = None -> ObjectPrototype.has key = false -> get o key = None.
Proof. intros H K. unfold get. rewrite H, K. reflexivity. Qed.

Lemma get_own (o : gmap string string) (key v : string) :
  o !! key = Some v -> get o key = Some (Str v).
Proof. intros H. unfold get. rewrite H. reflexivity. Qed.

(** A table with no own entry for the identifier plays no part. *)
Lemma umdModuleIdStrategy_absent (moduleId : string) (umdModuleIds : gmap string string) :
  umdModuleIds !! moduleId = None ->
  umdModuleIdStrategy moduleId umdModuleIds = umdModuleIdStrategy moduleId ∅.
Proof.
  intros H. unfold umdModuleIdStrategy, get. rewrite H, lookup_empty.
  reflexivity.
Qed.

(** The name of an identifier under [@angular/platform-browser-dynamic]. *)
Lemma platformBrowserDynamic_name (rem : string) :
  umdModuleIdStrategy ("@angular/platform-browser-dynamic" +:+ rem) ∅
  = JSString.replace
      ("ng.platformBrowserDynamic" +:+ takeCls AnyChar rem) "/" ".".
Proof.
  unfold umdModuleIdStrategy.
  rewrite get_empty_nonkey by reflexivity. cbn [truthy].
  unfold Patterns.platformBrowserDynamic. rewrite exec_literal_rest.
  reflexivity.
Qed.

(** The name of an identifier under [@angular/platform-browser] that is
    not under the dynamic variant. *)
Lemma platformBrowser_name (rem : string) :
  JSString.strip "-dynamic" rem = None ->
  umdModuleIdStrategy ("@angular/platform-browser" +:+ rem) ∅
  = JSString.replace ("ng.platformBrowser" +:+ takeCls AnyChar rem) "/" ".".
Proof.
  intros Hdyn.
  unfold umdModuleIdStrategy.
  rewrite get_empty_nonkey by reflexivity. cbn [truthy].
  unfold Patterns.platformBrowserDynamic.
  change "@angular/platform-browser-dynamic"
    with ("@angular/platform-browser" +:+ "-dynamic").
  rewrite exec_literal_mismatch
    by (rewrite strip_app_l, strip_app; exact Hdyn).
  unfold Patterns.platformBrowser. rewrite exec_literal_rest.
  reflexivity.
Qed.

(** The name of any other identifier under [@angular/]: the remainder up
    to its first line terminator, after [ng.], with ONE replacement of a
    slash by a dot. *)
Lemma angular_name (rem : string) :
  JSString.strip "platform-browser" rem = None ->
  takeCls AnyChar rem <> EmptyString ->
  umdModuleIdStrategy ("@angular/" +:+ rem) ∅
  = JSString.replace ("ng." +:+ takeCls AnyChar rem) "/" ".".
Proof.
  intros Hpb Hne.
  unfold umdModuleIdStrategy.
  rewrite get_empty_nonkey by reflexivity. cbn [truthy].
  unfold Patterns.platformBrowserDynamic.
  change "@angular/platform-browser-dynamic"
    with ("@angular/" +:+ "platform-browser" +:+ "-dynamic").
  rewrite exec_literal_mismatch
    by (rewrite strip_app_l, strip_app, strip_app_l, Hpb; reflexivity).
  unfold Patterns.platformBrowser.
  change "@angular/platform-browser"
    with ("@angular/" +:+ "platform-browser").
  rewrite exec_literal_mismatch
    by (rewrite strip_app_l, strip_app; exact Hpb).
  unfold Patterns.angular. rewrite exec_literal_plus.
  destruct (takeCls AnyChar rem); [contradiction | reflexivity].
Qed.

(** What the three framework rules leave behind: of the [n] separators of
    the captured remainder, [n - 1] are still in the name. *)
Lemma angular_separators_left (rem : string) :
  JSString.strip "platform-browser" rem = None ->
  takeCls AnyChar rem <> EmptyString ->
  exists name : string,
    umdModuleIdStrategy ("@angular/" +:+ rem) ∅ = Str name /\
    JSString.countChar name "/"
    = Nat.pred (JSString.countChar (takeCls AnyChar rem) "/").
Proof.
  intros Hpb Hne. eexists. split; [apply angular_name; assumption|].
  rewrite replace_count by discriminate.
  rewrite countChar_app. reflexivity.
Qed.

(** With at most one separator in the remainder the conversion is
    complete. *)
Lemma replace_all_when_single (s : string) (c d : ascii) :
  c <> d -> (JSString.countChar s c <= 1)%nat ->
  JSString.replace s (String c EmptyString) (String d EmptyString)
  = JSString.replaceAllChar s c d.
Proof.
  intros Hne. induction s as [|a s IH]; simpl; [reflexivity|].
  destruct (Ascii.eqb_spec c a) as [<-|Hca].
  - rewrite Ascii.eqb_refl. simpl. intros H.
    assert (JSString.countChar s c = 0%nat) as Hz by lia.
    clear IH H. f_equal.
    induction s as [|b s IH]; simpl in *; [reflexivity|].
    destruct (Ascii.eqb b c); [discriminate|]. f_equal. apply IH, Hz.
  - destruct (Ascii.eqb_spec a c); [congruence|]. simpl.
    intros H. f_equal. apply IH, H.
Qed.

End ResolverFacts.

Section ResolverClaims.

(** C4, amended.  For an identifier that is a key of the override table
    with a non-empty string as its value, the resolver returns that value,
    whether or not a built-in pattern rule matches the identifier. *)
Theorem nonempty_override_wins
    (moduleId : string) (umdModuleIds : gmap string string) (name : string) :
  umdModuleIds !! moduleId = Some name ->
  name <> EmptyString ->
  umdModuleIdStrategy moduleId umdModuleIds = name.
Proof.
  intros Hkey Hne. unfold umdModuleIdStrategy.
  rewrite (get_own _ _ _ Hkey).
  destruct name; [contradiction | reflexivity].
Qed.

(** C5.  With an empty override table the platform-browser-dynamic rule
    is reached before the platform-browser and the general framework
    rules, and [@angular/core] is named by the general rule. *)
Theorem framework_names :
  umdModuleIdStrategy "@angular/platform-browser-dynamic" ∅
    = "ng.platformBrowserDynamic" /\
  umdModuleIdStrategy "@angular/platform-browser-dynamic/testing" ∅
    = "ng.platformBrowserDynamic.testing" /\
  umdModuleIdStrategy "@angular/core" ∅ = "ng.core".
Proof. repeat split; vm_compute; reflexivity. Qed.

(** C6.  With an empty override table: [Rx.Observable] for the
    observable sub-paths, [Rx] for a single segment under [rxjs/], the
    empty string for an identifier no rule matches. *)
Theorem reactive_names :
  umdModuleIdStrategy "rxjs/observable" ∅ = "Rx.Observable" /\
  umdModuleIdStrategy "rxjs/add/observable" ∅ = "Rx.Observable" /\
  umdModuleIdStrategy "rxjs/Subject" ∅ = "Rx" /\
  umdModuleIdStrategy "lodash" ∅ = "".
Proof. repeat split; vm_compute; reflexivity. Qed.

(** C7, at the failing input.  For [@angular/common/http/testing] the
    derived name still has a path separator in it: only the first one was
    turned into a dot, where full conversion gives
    [ng.common.http.testing]. *)
Theorem nested_path_keeps_separator :
  umdModuleIdStrategy "@angular/common/http/testing" ∅
    = "ng.common.http/testing" /\
  JSString.replaceAllChar ("ng." +:+ "common/http/testing") "/" "."
    = "ng.common.http.testing".
Proof. split; vm_compute; reflexivity. Qed.

(** C10.  Matching is case-sensitive: [rxjs/Observable] is not under the
    [observable] sub-path rule and gets the root name. *)
Theorem matching_is_case_sensitive :
  RegExp.test Patterns.rxObservable "rxjs/Observable" = false /\
  umdModuleIdStrategy "rxjs/Observable" ∅ = "Rx".
Proof. split; vm_compute; reflexivity. Qed.

End ResolverClaims.

(** ** Diagnostic handler *)

Section HandlerFacts.

Lemma strict_eq_spec (v : option string) (s : string) :
  strict_eq v s = true <-> v = Some s.
Proof.
  destruct v as [c|]; simpl.
  - rewrite String.eqb_eq. split; congruence.
  - split; discriminate.
Qed.

Lemma app_one_neq {A} (l : list A) (x : A) : l ++ [x] <> l.
Proof.
  intros H. apply (f_equal (@length A)) in H.
  rewrite length_app in H. simpl in H. lia.
Qed.

(** C9.  The handler returns normally on every diagnostic; it appends the
    diagnostic's message to the log as a warning exactly when the code is
    not [THIS_IS_UNDEFINED], and leaves the log as it was exactly when the
    code is [THIS_IS_UNDEFINED]. *)
Theorem onwarn_forwards_all_but_this_is_undefined
    (w : RollupWarning) (sink : list Log.entry) :
  fst (onwarn w sink) = Normal tt /\
  (snd (onwarn w sink) = sink ++ [Log.mkEntry Log.Warn (message w)]
   <-> code w <> Some "THIS_IS_UNDEFINED") /\
  (snd (onwarn w sink) = sink <-> code w = Some "THIS_IS_UNDEFINED").
Proof.
  unfold onwarn.
  destruct (strict_eq (code w) "THIS_IS_UNDEFINED") eqn:E; simpl.
  - apply strict_eq_spec in E. split; [reflexivity|]. split; split.
    + intros H. symmetry in H. apply app_one_neq in H. contradiction.
    + congruence.
    + intros _. exact E.
    + reflexivity.
  - assert (code w <> Some "THIS_IS_UNDEFINED") as Hne.
    { intros H%strict_eq_spec. congruence. }
    split; [reflexivity|]. split; split.
    + intros _. exact Hne.
    + reflexivity.
    + intros H. apply app_one_neq in H. contradiction.
    + intros H. contradiction.
Qed.

(** X13.  A whole run of diagnostics handled one after the other: none
    stops the run, and the log receives the messages of those that are not
    [THIS_IS_UNDEFINED], in order, after what it held. *)
Lemma onwarn_each_run (ws : list RollupWarning) (sink : list Log.entry) :
  onwarn_each ws sink =
  (Normal tt,
   sink ++ map warnEntry (filter (fun w => negb (isThisIsUndefined w)) ws)).
Proof.
  revert sink. induction ws as [|w ws IH]; intros sink; simpl.
  - unfold ret. rewrite app_nil_r. reflexivity.
  - unfold bind, onwarn, isThisIsUndefined in *.
    destruct (strict_eq (code w) "THIS_IS_UNDEFINED") eqn:E; simpl.
    + rewrite IH. rewrite filter_cons_False by (rewrite E; simpl; tauto).
      reflexivity.
    + rewrite IH. rewrite filter_cons_True by (rewrite E; reflexivity).
      simpl. rewrite <- app_assoc. reflexivity.
Qed.

End HandlerFacts.

(** ** Concrete runs *)

Section Runs.

(** C1 at a relative import. *)
Lemma local_ids_not_external_run :
  JSString.startsWith "./util/log" "." = true /\
  externalModuleIdStrategy (path := Path.posix) "./util/log" [] = false.
Proof.
  split; [reflexivity|].
  apply (@local_ids_not_external Path.posix "./util/log" []).
  right; left; reflexivity.
Defined.

(** C2 at a package that would otherwise be external. *)
Lemma embedded_not_external_run :
  externalModuleIdStrategy (path := Path.posix) "lodash" [] = true /\
  externalModuleIdStrategy (path := Path.posix) "lodash" ["moment"; "lodash"] = false.
Proof.
  split; [reflexivity|].
  apply (@embedded_not_external Path.posix "lodash" ["moment"; "lodash"]).
  simpl. right; left; reflexivity.
Defined.

(** C3 as stated fails on the identifier under which the CommonJS plugin
    serves its helpers (a NUL character, then [commonjsHelpers]): not an
    absolute path, no leading dot or slash, not embedded, and still
    classified not external. *)
Lemma helpers_are_not_external :
  isAbsolute (PathModule := Path.posix) (String "000"%char "commonjsHelpers") = false /\
  isAbsolute (PathModule := Path.win32) (String "000"%char "commonjsHelpers") = false /\
  JSString.startsWith (String "000"%char "commonjsHelpers") "." = false /\
  JSString.startsWith (String "000"%char "commonjsHelpers") "/" = false /\
  ~ In (String "000"%char "commonjsHelpers") [] /\
  externalModuleIdStrategy (path := Path.posix)
    (String "000"%char "commonjsHelpers") [] = false /\
  externalModuleIdStrategy (path := Path.win32)
    (String "000"%char "commonjsHelpers") [] = false.
Proof. repeat split; try reflexivity. intros []. Qed.

(** C3, amended, at a framework package. *)
Lemma other_ids_external_run :
  externalModuleIdStrategy (path := Path.posix) "@angular/core" ["lodash"] = true.
Proof.
  apply (@other_ids_external Path.posix "@angular/core" ["lodash"]).
  - reflexivity.
  - reflexivity.
  - reflexivity.
  - vm_compute. reflexivity.
  - simpl. intros [H | []]. discriminate H.
Defined.

(** C4 as stated fails on an entry whose value is the empty string: the
    key is in the table, a pattern rule matches it too, and the resolver
    returns the derived name, not the table's value. *)
Lemma empty_override_is_passed_over :
  ({["@angular/core" := ""]} : gmap string string) !! "@angular/core" = Some "" /\
  matchesPattern "@angular/core" = true /\
  umdModuleIdStrategy "@angular/core" {["@angular/core" := ""]} = "ng.core".
Proof. repeat split; vm_compute; reflexivity. Qed.

(** C4, amended, at an override of a framework package. *)
Lemma nonempty_override_wins_run :
  matchesPattern "@angular/core" = true /\
  umdModuleIdStrategy "@angular/core" {["@angular/core" := "angularCore"]}
    = "angularCore".
Proof.
  split; [reflexivity|].
  apply (nonempty_override_wins "@angular/core"
           {["@angular/core" := "angularCore"]} "angularCore").
  - vm_compute. reflexivity.
  - discriminate.
Defined.

(** C8 as stated fails: on POSIX an identifier with a leading slash is an
    absolute path as well, and a relative path to the helpers that is
    also embedded satisfies three conditions on either platform; an
    embedded path to the helpers with a leading slash satisfies four. *)
Lemma conditions_hold_together :
  holding (notExternalConditions (path := Path.posix) "/src/index.js" []) = 2%nat /\
  holding (notExternalConditions (path := Path.win32)
             "./commonjsHelpers.js" ["./commonjsHelpers.js"]) = 3%nat /\
  notExternalConditions (path := Path.posix)
    "/commonjsHelpers.js" ["/commonjsHelpers.js"]
  = [true; false; true; true; true] /\
  notExternalConditions (path := Path.win32)
    "/commonjsHelpers.js" ["/commonjsHelpers.js"]
  = [true; false; true; true; true] /\
  notExternalConditions (path := Path.posix)
    "./commonjsHelpers.js" ["./commonjsHelpers.js"]
  = [false; true; false; true; true] /\
  notExternalConditions (path := Path.win32)
    "./commonjsHelpers.js" ["./commonjsHelpers.js"]
  = [false; true; false; true; true].
Proof. repeat split; vm_compute; reflexivity. Qed.

End Runs.

(** ** More on the classifier *)

Section ClassifierMore.
Import JSString.

Lemma app_assoc_str (a b c : string) : (a +:+ b) +:+ c = a +:+ b +:+ c.
Proof. induction a as [|x a IH]; simpl; [reflexivity | f_equal; exact IH]. Qed.

(** [indexOf] answers a non-negative index only where the text occurs. *)
Lemma indexOf_occurs (s search : string) :
  0 <= indexOf s search -> exists pre post, s = pre +:+ search +:+ post.
Proof.
  induction s as [|a s IH]; simpl.
  - unfold startsWith. destruct (strip search "") as [t|] eqn:E; [|lia].
    intros _. apply strip_spec in E. exists EmptyString, t. exact E.
  - unfold startsWith at 1. destruct (strip search (String a s)) as [t|] eqn:E.
    + intros _. apply strip_spec in E. exists EmptyString, t. exact E.
    + destruct (Z.ltb_spec (indexOf s search) 0); [lia|].
      intros _. destruct IH as (pre & post & ->); [assumption|].
      exists (String a pre), post. reflexivity.
Qed.

Lemma indexOf_iff (s search : string) :
  0 <= indexOf s search <-> exists pre post, s = pre +:+ search +:+ post.
Proof.
  split; [apply indexOf_occurs|]. intros (pre & post & ->). apply indexOf_found.
Qed.

Lemma posix_isAbsolute_slash (s : string) :
  Path.posix_isAbsolute s = startsWith s "/".
Proof.
  destruct s as [|a s]; [reflexivity|].
  unfold startsWith, Path.posix_isAbsolute. cbn [strip].
  rewrite (Ascii.eqb_sym a "/"). destruct (Ascii.eqb "/" a); reflexivity.
Qed.

Lemma win32_isAbsolute_slash (s : string) :
  startsWith s "/" = true -> Path.win32_isAbsolute s = true.
Proof.
  intros [s' ->]%startsWith_char. reflexivity.
Qed.

Lemma device_root_is_letter (c : ascii) :
  Path.isWindowsDeviceRoot c = true ->
  Ascii.eqb c "/" = false /\ Ascii.eqb c "." = false /\ Ascii.eqb c "\" = false.
Proof.
  destruct c as [[] [] [] [] [] [] [] []]; try discriminate; repeat split.
Qed.

Lemma some_eq_app (e1 e2 : list string) (moduleId : string) :
  some_eq (e1 ++ e2) moduleId = some_eq e1 moduleId || some_eq e2 moduleId.
Proof. unfold some_eq. apply existsb_app. Qed.

(** X1.  An identifier that contains [commonjsHelpers] anywhere is not
    external, on every platform and with every embedded list. *)
Theorem helpers_anywhere_not_external `{path : PathModule}
    (pre post : string) (embedded : list string) :
  externalModuleIdStrategy (pre +:+ "commonjsHelpers" +:+ post) embedded = false.
Proof.
  unfold externalModuleIdStrategy.
  pose proof (indexOf_found pre "commonjsHelpers" post) as H.
  apply Z.leb_le in H. rewrite H, !orb_true_r. reflexivity.
Qed.

(** X2.  The embedded list is used as a set: two lists with the same
    members classify every identifier alike, whatever their order and
    repetitions. *)
Theorem embedded_is_a_set `{path : PathModule}
    (moduleId : string) (e1 e2 : list string) :
  (forall x, In x e1 <-> In x e2) ->
  externalModuleIdStrategy moduleId e1 = externalModuleIdStrategy moduleId e2.
Proof.
  intros H. unfold externalModuleIdStrategy.
  replace (some_eq e2 moduleId) with (some_eq e1 moduleId); [reflexivity|].
  apply eq_true_iff_eq. rewrite !some_eq_In. apply H.
Qed.

(** X3.  Embedding more never makes an identifier external: with two
    lists put together an identifier is external exactly when it is
    external with each of them. *)
Theorem embedded_lists_combine `{path : PathModule}
    (moduleId : string) (e1 e2 : list string) :
  externalModuleIdStrategy moduleId (e1 ++ e2)
  = externalModuleIdStrategy moduleId e1 && externalModuleIdStrategy moduleId e2.
Proof.
  unfold externalModuleIdStrategy. rewrite some_eq_app.
  destruct (isAbsolute moduleId), (startsWith moduleId "."),
    (startsWith moduleId "/"), (0 <=? indexOf moduleId "commonjsHelpers"),
    (some_eq e1 moduleId), (some_eq e2 moduleId); reflexivity.
Qed.

(** X4.  Under both implementations of [path.isAbsolute] that Node ships,
    an identifier with a leading slash is an absolute path already: the
    classifier's answer is the same without its test for a leading slash. *)
Theorem slash_test_never_decides (moduleId : string) (embedded : list string) :
  externalModuleIdStrategy (path := Path.posix) moduleId embedded
  = negb (Path.posix_isAbsolute moduleId
          || startsWith moduleId "."
          || (0 <=? indexOf moduleId "commonjsHelpers")
          || some_eq embedded moduleId) /\
  externalModuleIdStrategy (path := Path.win32) moduleId embedded
  = negb (Path.win32_isAbsolute moduleId
          || startsWith moduleId "."
          || (0 <=? indexOf moduleId "commonjsHelpers")
          || some_eq embedded moduleId).
Proof.
  unfold externalModuleIdStrategy. simpl isAbsolute. split.
  - rewrite posix_isAbsolute_slash.
    destruct (startsWith moduleId "/"), (startsWith moduleId "."),
      (0 <=? indexOf moduleId "commonjsHelpers"), (some_eq embedded moduleId);
      reflexivity.
  - destruct (startsWith moduleId "/") eqn:E.
    + rewrite (win32_isAbsolute_slash _ E). reflexivity.
    + destruct (Path.win32_isAbsolute moduleId), (startsWith moduleId "."),
        (0 <=? indexOf moduleId "commonjsHelpers"), (some_eq embedded moduleId);
        reflexivity.
Qed.

(** X5.  The external identifiers, exactly: not an absolute path, no
    leading dot or slash, no occurrence of [commonjsHelpers], not in the
    embedded list. *)
Theorem external_iff `{path : PathModule}
    (moduleId : string) (embedded : list string) :
  externalModuleIdStrategy moduleId embedded = true <->
  isAbsolute moduleId = false /\
  startsWith moduleId "." = false /\
  startsWith moduleId "/" = false /\
  ~ (exists pre post, moduleId = pre +:+ "commonjsHelpers" +:+ post) /\
  ~ In moduleId embedded.
Proof.
  rewrite <- indexOf_iff, <- some_eq_not_In, <- Z.leb_le.
  unfold externalModuleIdStrategy.
  destruct (isAbsolute moduleId), (startsWith moduleId "."),
    (startsWith moduleId "/"), (0 <=? indexOf moduleId "commonjsHelpers"),
    (some_eq embedded moduleId); simpl; intuition congruence.
Qed.

(** X6.  A drive-letter path is classified by the platform: not external
    under the Windows implementation of [path.isAbsolute], external under
    the POSIX one unless the helpers or the embedded list say otherwise. *)
Theorem drive_paths_depend_on_platform
    (c sep : ascii) (rem : string) (embedded : list string) :
  Path.isWindowsDeviceRoot c = true ->
  Path.isPathSeparator sep = true ->
  indexOf (String c (String ":" (String sep rem))) "commonjsHelpers" < 0 ->
  ~ In (String c (String ":" (String sep rem))) embedded ->
  externalModuleIdStrategy (path := Path.win32)
    (String c (String ":" (String sep rem))) embedded = false /\
  externalModuleIdStrategy (path := Path.posix)
    (String c (String ":" (String sep rem))) embedded = true.
Proof.
  intros Hc Hsep Hh Hemb%some_eq_not_In.
  destruct (device_root_is_letter c Hc) as (Hs & Hd & Hb).
  split.
  - unfold externalModuleIdStrategy. simpl isAbsolute.
    unfold Path.win32_isAbsolute. rewrite Hc, Hsep. simpl.
    rewrite orb_true_r. reflexivity.
  - unfold externalModuleIdStrategy. simpl isAbsolute.
    unfold Path.posix_isAbsolute, startsWith. cbn [strip].
    rewrite Hs, Hemb.
    rewrite (Ascii.eqb_sym "."%char c), Hd, (Ascii.eqb_sym "/"%char c), Hs.
    destruct (Z.leb_spec 0
      (indexOf (String c (String ":" (String sep rem))) "commonjsHelpers")); [lia|].
    reflexivity.
Qed.

Lemma posix_abs_not_dot (s : string) :
  Path.posix_isAbsolute s = true -> startsWith s "." = true -> False.
Proof.
  rewrite posix_isAbsolute_slash. intros Hs Hd.
  apply (startsWith_char_excl s "." "/") in Hd; [congruence | discriminate].
Qed.

Lemma win32_abs_not_dot (s : string) :
  Path.win32_isAbsolute s = true -> startsWith s "." = true -> False.
Proof.
  intros Ha [s' ->]%startsWith_char.
  destruct s' as [|a [|b s']]; cbn in Ha; discriminate Ha.
Qed.

Lemma dot_not_slash (s : string) :
  startsWith s "." = true -> startsWith s "/" = true -> False.
Proof.
  intros Hd Hs.
  apply (startsWith_char_excl s "." "/") in Hd; [congruence | discriminate].
Qed.

(** Two conditions that hold together are not a dot pair. *)
Ltac kept_apart :=
  let H1 := fresh "H" in
  let H2 := fresh "H" in
  intros (? & ? & H1 & H2);
  unfold notExternalConditions in H1, H2; cbn [nth] in H1, H2;
  first
    [ reflexivity
    | exfalso; simpl isAbsolute in *;
      first [ eapply posix_abs_not_dot; eassumption
            | eapply win32_abs_not_dot; eassumption
            | eapply dot_not_slash; eassumption ] ].

(** Outside the dot pairs one of two identifiers has both conditions. *)
Ltac held_together :=
  let E := fresh "E" in
  intros E;
  first
    [ discriminate E
    | exists "/commonjsHelpers.js", ["/commonjsHelpers.js"]; split; reflexivity
    | exists "./commonjsHelpers.js", ["./commonjsHelpers.js"]; split; reflexivity ].

(** C8, amended.  With either implementation of [path.isAbsolute] that
    Node ships, two of the five not-external conditions hold together for
    some identifier and embedded list in every case but two: a leading dot
    never comes with an absolute path, and never with a leading slash. *)
Theorem only_the_dot_pairs_exclude (i j : nat) :
  (i < 5)%nat -> (j < 5)%nat ->
  (holdTogether (path := Path.posix) i j <-> dotPair i j = false) /\
  (holdTogether (path := Path.win32) i j <-> dotPair i j = false).
Proof.
  intros Hi Hj.
  destruct i as [|[|[|[|[|i]]]]]; try lia;
    destruct j as [|[|[|[|[|j]]]]]; try lia;
    (split; (split; [kept_apart | held_together])).
Qed.

End ClassifierMore.

(** ** More on the regular expressions *)

Section RegExpMore.
Import RegExp.

(** [/^l/]: a match exactly when [l] is a prefix of the input. *)
Lemma test_literal (l s : string) :
  test (Seq Bos (Lit l)) s = JSString.startsWith s l.
Proof.
  unfold test, JSString.startsWith. rewrite exec_anchored.
  cbn [run index rest capture]. destruct (JSString.strip l s); reflexivity.
Qed.

Lemma startsWith_app_l (l1 l2 s : string) :
  JSString.startsWith s (l1 +:+ l2) =
  match JSString.strip l1 s with
  | Some t => JSString.startsWith t l2
  | None => false
  end.
Proof.
  unfold JSString.startsWith. rewrite strip_app_l.
  destruct (JSString.strip l1 s); reflexivity.
Qed.

Lemma add_succ_neq (n k : nat) : (n + S k =? n)%nat = false.
Proof. apply Nat.eqb_neq. lia. Qed.

(** [/^l(g)?m/] with a non-empty [g]: after [l], either [g] and then [m],
    or [m] right away. *)
Lemma test_optional_group (l m t : string) (a : ascii) (g : string) :
  test (Seq Bos (Seq (Lit l) (Seq (Opt (Group (Lit (String a g)))) (Lit m))))
    (l +:+ t)
  = JSString.startsWith t (String a g +:+ m) || JSString.startsWith t m.
Proof.
  unfold test. rewrite exec_anchored.
  cbn [run index rest capture has_group]. rewrite strip_app.
  cbn [run index rest capture has_group].
  rewrite startsWith_app_l. unfold JSString.startsWith.
  destruct (JSString.strip (String a g) t) as [u|] eqn:Eg.
  - cbn [String.length]. rewrite add_succ_neq.
    destruct (JSString.strip m u); [reflexivity|].
    destruct (JSString.strip m t); reflexivity.
  - destruct (JSString.strip m t); reflexivity.
Qed.

(** A greedy [k*] that must reach the end of the input gets there exactly
    when all that is left is in the class; giving characters back cannot
    help. *)
Lemma star_to_end {A} (k : cls) (i : nat) (s : string) (cap : option string)
    (c : cont A) :
  star k i s cap
    (fun y => match rest y with EmptyString => c y | String _ _ => None end)
  = match dropCls k s with
    | EmptyString => c (mkState (i + String.length s) EmptyString cap)
    | String _ _ => None
    end.
Proof.
  revert i. induction s as [|a s IH]; intros i; cbn [star dropCls].
  - rewrite Nat.add_0_r. reflexivity.
  - destruct (cls_match k a); [|reflexivity].
    rewrite IH. cbn [rest String.length]. rewrite <- Nat.add_succ_comm.
    destruct (dropCls k s); [|reflexivity].
    destruct (c _); reflexivity.
Qed.

Lemma dropCls_NotChar (c : ascii) (s : string) :
  dropCls (NotChar c) s = EmptyString <-> JSString.hasChar s c = false.
Proof.
  induction s as [|a s IH]; cbn [dropCls JSString.hasChar cls_match]; [tauto|].
  destruct (Ascii.eqb a c); simpl; [split; discriminate | exact IH].
Qed.

(** [/^l[^c]+$/] on [l ++ seg]: [seg] is one non-empty segment. *)
Lemma test_one_segment (l seg : string) (c : ascii) :
  test (Seq Bos (Seq (Lit l) (Seq (Plus (NotChar c)) Eos))) (l +:+ seg)
  = match seg with
    | EmptyString => false
    | String _ _ => negb (JSString.hasChar seg c)
    end.
Proof.
  unfold test. rewrite exec_anchored.
  cbn [run index rest capture]. rewrite strip_app.
  cbn [run index rest capture].
  destruct seg as [|a seg]; [reflexivity|].
  cbn [JSString.hasChar cls_match].
  destruct (Ascii.eqb a c); [reflexivity|]. cbn [negb orb].
  rewrite star_to_end.
  destruct (dropCls (NotChar c) seg) eqn:E.
  - apply dropCls_NotChar in E. rewrite E. reflexivity.
  - destruct (JSString.hasChar seg c) eqn:F; [reflexivity|].
    apply dropCls_NotChar in F. congruence.
Qed.

(** [replace] leaves alone a prefix that does not contain the character. *)
Lemma replace_after_prefix (l s : string) (c : ascii) (by_ : string) :
  JSString.hasChar l c = false ->
  JSString.replace (l +:+ s) (String c EmptyString) by_
  = l +:+ JSString.replace s (String c EmptyString) by_.
Proof.
  induction l as [|a l IH]; [reflexivity|].
  cbn [JSString.hasChar]. intros [Ha Hl]%orb_false_iff.
  cbn [String.append JSString.replace JSString.strip].
  rewrite Ascii.eqb_sym, Ha. f_equal. exact (IH Hl).
Qed.

End RegExpMore.

(** ** More on the resolver *)

Section ResolverMore.
Import RegExp.

(** None of the three framework patterns matches an identifier that is not
    under [@angular/]. *)
Lemma framework_patterns_need_prefix (moduleId : string) :
  JSString.strip "@angular/" moduleId = None ->
  exec Patterns.platformBrowserDynamic moduleId = None /\
  exec Patterns.platformBrowser moduleId = None /\
  exec Patterns.angular moduleId = None.
Proof.
  intros H. repeat split.
  - unfold Patterns.platformBrowserDynamic.
    change "@angular/platform-browser-dynamic"
      with ("@angular/" +:+ "platform-browser-dynamic").
    apply exec_literal_mismatch. rewrite strip_app_l, H. reflexivity.
  - unfold Patterns.platformBrowser.
    change "@angular/platform-browser"
      with ("@angular/" +:+ "platform-browser").
    apply exec_literal_mismatch. rewrite strip_app_l, H. reflexivity.
  - apply exec_literal_mismatch, H.
Qed.

(** None of the five reactive patterns matches an identifier that is not
    under [rxjs/]. *)
Lemma reactive_patterns_need_prefix (moduleId : string) :
  JSString.strip "rxjs/" moduleId = None ->
  test Patterns.rxObservable moduleId = false /\
  test Patterns.rxScheduler moduleId = false /\
  test Patterns.rxSymbol moduleId = false /\
  test Patterns.rxOperator moduleId = false /\
  test Patterns.rxRoot moduleId = false.
Proof.
  intros H. repeat split.
  - apply test_literal_mismatch, H.
  - unfold Patterns.rxScheduler.
    change "rxjs/scheduler" with ("rxjs/" +:+ "scheduler").
    rewrite test_literal, startsWith_app_l, H. reflexivity.
  - unfold Patterns.rxSymbol.
    change "rxjs/symbol" with ("rxjs/" +:+ "symbol").
    rewrite test_literal, startsWith_app_l, H. reflexivity.
  - apply test_literal_mismatch, H.
  - apply test_literal_mismatch, H.
Qed.

(** The resolver on an identifier under [rxjs/], with no override: the
    framework rules are out of the way. *)
Lemma reactive_rules (seg : string) :
  umdModuleIdStrategy ("rxjs/" +:+ seg) ∅ =
  if test Patterns.rxObservable ("rxjs/" +:+ seg) then "Rx.Observable"
  else if test Patterns.rxScheduler ("rxjs/" +:+ seg) then "Rx.Scheduler"
  else if test Patterns.rxSymbol ("rxjs/" +:+ seg) then "Rx.Symbol"
  else if test Patterns.rxOperator ("rxjs/" +:+ seg) then "Rx.Observable.prototype"
  else if test Patterns.rxRoot ("rxjs/" +:+ seg) then "Rx"
  else "".
Proof.
  unfold umdModuleIdStrategy.
  rewrite get_empty_nonkey by reflexivity. cbn [truthy].
  destruct (framework_patterns_need_prefix ("rxjs/" +:+ seg)) as (-> & -> & ->);
    reflexivity.
Qed.

Lemma test_rxScheduler (seg : string) :
  test Patterns.rxScheduler ("rxjs/" +:+ seg) = JSString.startsWith seg "scheduler".
Proof.
  unfold Patterns.rxScheduler.
  change "rxjs/scheduler" with ("rxjs/" +:+ "scheduler").
  rewrite test_literal, startsWith_app_l, strip_app. reflexivity.
Qed.

Lemma test_rxSymbol (seg : string) :
  test Patterns.rxSymbol ("rxjs/" +:+ seg) = JSString.startsWith seg "symbol".
Proof.
  unfold Patterns.rxSymbol.
  change "rxjs/symbol" with ("rxjs/" +:+ "symbol").
  rewrite test_literal, startsWith_app_l, strip_app. reflexivity.
Qed.

(** X7.  Every identifier of code units below 256 that begins with
    [@angular/platform-browser-dynamic] is named after the dynamic
    platform: the rule is tried first, so neither the platform-browser rule
    nor the general one gets to it.  The remainder, up to its first LF or
    CR, follows the base name with its first slash as a dot. *)
Theorem dynamic_rule_comes_first (rem : string) :
  umdModuleIdStrategy ("@angular/platform-browser-dynamic" +:+ rem) ∅
  = "ng.platformBrowserDynamic"
    +:+ JSString.replace (takeCls AnyChar rem) "/" ".".
Proof.
  rewrite platformBrowserDynamic_name. apply (f_equal Str).
  apply replace_after_prefix. reflexivity.
Qed.

(** X8.  Every identifier of code units below 256 that begins with
    [@angular/platform-browser] and does not go on with [-dynamic] is named
    after the browser platform: the remainder, up to its first LF or CR,
    follows the base name with its first slash as a dot. *)
Theorem platform_browser_rule (rem : string) :
  JSString.startsWith rem "-dynamic" = false ->
  umdModuleIdStrategy ("@angular/platform-browser" +:+ rem) ∅
  = "ng.platformBrowser" +:+ JSString.replace (takeCls AnyChar rem) "/" ".".
Proof.
  intros H. rewrite platformBrowser_name.
  - apply (f_equal Str). apply replace_after_prefix. reflexivity.
  - unfold JSString.startsWith in H.
    destruct (JSString.strip "-dynamic" rem); [discriminate | reflexivity].
Qed.

(** X9.  Under [@angular/], outside the two platform rules, a non-empty
    remainder of code units below 256 with no LF, no CR and at most one
    slash is converted in full: the name is [ng.] and the remainder with
    the slash as a dot, every other character (dashes included) as it is. *)
Theorem framework_rule_converts_one_separator (rem : string) :
  JSString.startsWith rem "platform-browser" = false ->
  rem <> EmptyString ->
  takeCls AnyChar rem = rem ->
  (JSString.countChar rem "/" <= 1)%nat ->
  umdModuleIdStrategy ("@angular/" +:+ rem) ∅
  = "ng." +:+ JSString.replaceAllChar rem "/" ".".
Proof.
  intros Hpb Hne Hline Hcount.
  rewrite angular_name.
  - rewrite Hline, replace_after_prefix by reflexivity.
    apply (f_equal Str). apply (f_equal (String.append "ng.")).
    apply replace_all_when_single; [discriminate | exact Hcount].
  - unfold JSString.startsWith in Hpb.
    destruct (JSString.strip "platform-browser" rem); [discriminate | reflexivity].
  - rewrite Hline. exact Hne.
Qed.

(** X10.  An identifier outside both namespaces that has no entry in the
    override table and is not a property name of [Object.prototype] gets
    the empty name. *)
Theorem unknown_namespace_has_no_name
    (moduleId : string) (umdModuleIds : gmap string string) :
  umdModuleIds !! moduleId = None ->
  ObjectPrototype.has moduleId = false ->
  JSString.startsWith moduleId "@angular/" = false ->
  JSString.startsWith moduleId "rxjs/" = false ->
  umdModuleIdStrategy moduleId umdModuleIds = "".
Proof.
  intros Hkey Hproto Hng Hrx. unfold JSString.startsWith in Hng, Hrx.
  destruct (JSString.strip "@angular/" moduleId) eqn:Eng; [discriminate|].
  destruct (JSString.strip "rxjs/" moduleId) eqn:Erx; [discriminate|].
  unfold umdModuleIdStrategy. rewrite (get_nonkey _ _ Hkey Hproto).
  cbn [truthy].
  destruct (framework_patterns_need_prefix _ Eng) as (-> & -> & ->).
  destruct (reactive_patterns_need_prefix _ Erx) as (-> & -> & -> & -> & ->).
  reflexivity.
Qed.

(** X20.  An identifier that is a property name of [Object.prototype]
    ([constructor], [toString], ...) and has no entry of its own in the
    override table gets what the table inherits under that name, which is
    not a string; so it is with the default, empty table. *)
Theorem inherited_property_is_returned
    (moduleId : string) (umdModuleIds : gmap string string) :
  umdModuleIds !! moduleId = None ->
  ObjectPrototype.has moduleId = true ->
  umdModuleIdStrategy moduleId umdModuleIds = Inherited moduleId.
Proof.
  intros Hkey Hproto. unfold umdModuleIdStrategy, get.
  rewrite Hkey, Hproto. reflexivity.
Qed.

(** X11.  The four sub-path rules of the reactive library are prefix
    rules: whatever follows the sub-path word, the name is the same. *)
Theorem reactive_subpaths_are_prefixes (rem : string) :
  umdModuleIdStrategy ("rxjs/observable" +:+ rem) ∅ = "Rx.Observable" /\
  umdModuleIdStrategy ("rxjs/add/observable" +:+ rem) ∅ = "Rx.Observable" /\
  umdModuleIdStrategy ("rxjs/scheduler" +:+ rem) ∅ = "Rx.Scheduler" /\
  umdModuleIdStrategy ("rxjs/symbol" +:+ rem) ∅ = "Rx.Symbol" /\
  umdModuleIdStrategy ("rxjs/operator" +:+ rem) ∅ = "Rx.Observable.prototype" /\
  umdModuleIdStrategy ("rxjs/add/operator" +:+ rem) ∅ = "Rx.Observable.prototype".
Proof.
  repeat split.
  - change ("rxjs/observable" +:+ rem) with ("rxjs/" +:+ "observable" +:+ rem).
    rewrite reactive_rules. unfold Patterns.rxObservable.
    rewrite test_optional_group. reflexivity.
  - change ("rxjs/add/observable" +:+ rem)
      with ("rxjs/" +:+ "add/observable" +:+ rem).
    rewrite reactive_rules. unfold Patterns.rxObservable.
    rewrite test_optional_group. reflexivity.
  - change ("rxjs/scheduler" +:+ rem) with ("rxjs/" +:+ "scheduler" +:+ rem).
    rewrite reactive_rules. unfold Patterns.rxObservable.
    rewrite test_optional_group, test_rxScheduler. reflexivity.
  - change ("rxjs/symbol" +:+ rem) with ("rxjs/" +:+ "symbol" +:+ rem).
    rewrite reactive_rules. unfold Patterns.rxObservable.
    rewrite test_optional_group, test_rxScheduler, test_rxSymbol. reflexivity.
  - change ("rxjs/operator" +:+ rem) with ("rxjs/" +:+ "operator" +:+ rem).
    rewrite reactive_rules. unfold Patterns.rxObservable, Patterns.rxOperator.
    rewrite !test_optional_group, test_rxScheduler, test_rxSymbol. reflexivity.
  - change ("rxjs/add/operator" +:+ rem)
      with ("rxjs/" +:+ "add/operator" +:+ rem).
    rewrite reactive_rules. unfold Patterns.rxObservable, Patterns.rxOperator.
    rewrite !test_optional_group, test_rxScheduler, test_rxSymbol. reflexivity.
Qed.

(** X12.  Under [rxjs/], past the sub-path rules, the name is [Rx] for one
    non-empty segment and empty for anything deeper (and for [rxjs/]
    itself). *)
Theorem reactive_root_is_one_segment (seg : string) :
  JSString.startsWith seg "observable" = false ->
  JSString.startsWith seg "add/observable" = false ->
  JSString.startsWith seg "scheduler" = false ->
  JSString.startsWith seg "symbol" = false ->
  JSString.startsWith seg "operator" = false ->
  JSString.startsWith seg "add/operator" = false ->
  umdModuleIdStrategy ("rxjs/" +:+ seg) ∅
  = match seg with
    | EmptyString => ""
    | String _ _ => if JSString.hasChar seg "/" then "" else "Rx"
    end.
Proof.
  intros Hob Haob Hsc Hsy Hop Haop.
  change "add/observable" with ("add/" +:+ "observable") in Haob.
  change "add/operator" with ("add/" +:+ "operator") in Haop.
  rewrite reactive_rules. unfold Patterns.rxObservable, Patterns.rxOperator.
  rewrite !test_optional_group, test_rxScheduler, test_rxSymbol.
  rewrite Hob, Haob, Hsc, Hsy, Hop, Haop. cbn [orb].
  unfold Patterns.rxRoot. rewrite test_one_segment.
  destruct seg; [reflexivity|].
  destruct (JSString.hasChar _ _); reflexivity.
Qed.

(** X19.  With the empty table the resolver has four kinds of answers
    only: the empty name, a name under [ng.], a name that begins with [Rx],
    or, for a property name of [Object.prototype], the inherited value. *)
Theorem derived_names_are_under_ng_or_Rx (moduleId : string) :
  umdModuleIdStrategy moduleId ∅ = "" \/
  (exists name : string,
     umdModuleIdStrategy moduleId ∅ = name /\
     JSString.startsWith name "ng." = true) \/
  (exists name : string,
     umdModuleIdStrategy moduleId ∅ = name /\
     JSString.startsWith name "Rx" = true) \/
  (ObjectPrototype.has moduleId = true /\
   umdModuleIdStrategy moduleId ∅ = Inherited moduleId).
Proof.
  destruct (ObjectPrototype.has moduleId) eqn:Hproto.
  { right; right; right. split; [reflexivity|].
    unfold umdModuleIdStrategy, get. rewrite lookup_empty, Hproto.
    reflexivity. }
  unfold umdModuleIdStrategy. rewrite (get_empty_nonkey _ Hproto).
  cbn [truthy].
  destruct (exec Patterns.platformBrowserDynamic moduleId) as [m|].
  { right; left. eexists. split; [reflexivity|].
    change "ng.platformBrowserDynamic" with ("ng." +:+ "platformBrowserDynamic").
    rewrite app_assoc_str, replace_after_prefix by reflexivity.
    apply startsWith_app. }
  destruct (exec Patterns.platformBrowser moduleId) as [m|].
  { right; left. eexists. split; [reflexivity|].
    change "ng.platformBrowser" with ("ng." +:+ "platformBrowser").
    rewrite app_assoc_str, replace_after_prefix by reflexivity.
    apply startsWith_app. }
  destruct (exec Patterns.angular moduleId) as [m|].
  { right; left. eexists. split; [reflexivity|].
    rewrite replace_after_prefix by reflexivity.
    apply startsWith_app. }
  destruct (test Patterns.rxObservable moduleId);
    [right; right; left; eexists; split; reflexivity|].
  destruct (test Patterns.rxScheduler moduleId);
    [right; right; left; eexists; split; reflexivity|].
  destruct (test Patterns.rxSymbol moduleId);
    [right; right; left; eexists; split; reflexivity|].
  destruct (test Patterns.rxOperator moduleId);
    [right; right; left; eexists; split; reflexivity|].
  destruct (test Patterns.rxRoot moduleId);
    [right; right; left; eexists; split; reflexivity|].
  left; reflexivity.
Qed.

End ResolverMore.

(** ** The build steps *)

Section OrchestratorFacts.
Context `{path : PathModule} `{lib : BundlerLib} `{res : PathResolve}.

Lemma logging_artefacts {A} (m : Eff A) (w : World) :
  artefacts (snd (logging m w)) = artefacts w.
Proof. unfold logging. destruct (m (sink w)); reflexivity. Qed.

Lemma calling_artefacts {A}
    (f : list Log.entry * Outside -> completion A * (list Log.entry * Outside))
    (w : World) :
  artefacts (snd (calling f w)) = artefacts w.
Proof. unfold calling. destruct (f (sink w, outside w)); reflexivity. Qed.

(** Bundling never touches the artefacts object, however it ends. *)
Lemma rollup_keeps_artefacts (opts : RollupOptions) (w : World) :
  artefacts (snd (rollup opts w)) = artefacts w.
Proof.
  unfold rollup, io_bind.
  pose proof (logging_artefacts (log_debug (debugLine opts)) w) as H0.
  destruct (logging (log_debug (debugLine opts)) w) as [[[]|e0] w0];
    simpl in H0; [|exact H0].
  pose proof (calling_artefacts (rollup_rollup (inputOptions opts)) w0) as H1.
  destruct (calling (rollup_rollup (inputOptions opts)) w0) as [[b|e1] w1];
    simpl in H1; [|simpl; congruence].
  rewrite calling_artefacts. congruence.
Qed.

(** X14.  [rollup] stops at a failed build: when the bundler rejects the
    build, [rollup] rejects with the same error after its debug line, and
    [bundle.write] is not called: log and outside are as the failed build
    left them, the artefacts as they were. *)
Theorem rollup_stops_at_failed_build
    (opts : RollupOptions) (w : World) (e : string)
    (s' : list Log.entry) (o' : Outside) :
  rollup_rollup (inputOptions opts)
    (sink w ++ [Log.mkEntry Log.Debug (debugLine opts)], outside w)
  = (Thrown e, (s', o')) ->
  rollup opts w = (Thrown e, mkWorld s' o' (artefacts w)).
Proof.
  intros H. unfold rollup, io_bind, logging, log_debug, calling.
  cbn [sink outside artefacts]. rewrite H. reflexivity.
Qed.

(** X15.  [flattenToFesm15] ends as its bundling call ends.  When that
    succeeds, the artefacts afterwards are the earlier ones with
    [fesm15BundleFile] set to the resolved path of the bundle, the same
    path the bundle was written to; when it fails, the artefacts are
    untouched. *)
Theorem flattenToFesm15_outcome (entryPoint : BuildStep.EntryPoint) (w : World) :
  fst (flattenToFesm15 entryPoint w)
  = fst (rollup
           (fesm15Options (artefacts w) entryPoint
              (resolve [BuildStep.stageDir (artefacts w); "esm2015";
                        BuildStep.flatModuleFile entryPoint +:+ ".js"])) w) /\
  artefacts (snd (flattenToFesm15 entryPoint w))
  = match fst (flattenToFesm15 entryPoint w) with
    | Normal _ =>
        setFesm15BundleFile
          (resolve [BuildStep.stageDir (artefacts w); "esm2015";
                    BuildStep.flatModuleFile entryPoint +:+ ".js"])
          (artefacts w)
    | Thrown _ => artefacts w
    end.
Proof.
  unfold flattenToFesm15, io_bind, readArtefacts, updateArtefacts.
  set (f := resolve _).
  pose proof (rollup_keeps_artefacts (fesm15Options (artefacts w) entryPoint f) w) as H.
  destruct (rollup (fesm15Options (artefacts w) entryPoint f) w) as [[[]|e] w'];
    simpl in *; rewrite ?H; split; reflexivity.
Qed.

(** X16.  [flattenToUmd] ends as its bundling call ends.  When that
    succeeds, the artefacts afterwards are the earlier ones with
    [umdBundleFile] set to the resolved path of the bundle; when it fails,
    the artefacts are untouched. *)
Theorem flattenToUmd_outcome (entryPoint : BuildStep.EntryPoint) (w : World) :
  fst (flattenToUmd entryPoint w)
  = fst (rollup
           (umdOptions (artefacts w) entryPoint
              (resolve [BuildStep.stageDir (artefacts w); "bundles";
                        BuildStep.flatModuleFile entryPoint +:+ ".umd.js"])) w) /\
  artefacts (snd (flattenToUmd entryPoint w))
  = match fst (flattenToUmd entryPoint w) with
    | Normal _ =>
        setUmdBundleFile
          (resolve [BuildStep.stageDir (artefacts w); "bundles";
                    BuildStep.flatModuleFile entryPoint +:+ ".umd.js"])
          (artefacts w)
    | Thrown _ => artefacts w
    end.
Proof.
  unfold flattenToUmd, io_bind, readArtefacts, updateArtefacts.
  set (f := resolve _).
  pose proof (rollup_keeps_artefacts (umdOptions (artefacts w) entryPoint f) w) as H.
  destruct (rollup (umdOptions (artefacts w) entryPoint f) w) as [[[]|e] w'];
    simpl in *; rewrite ?H; split; reflexivity.
Qed.

(** X17.  In both steps the externality hook given to the bundler inlines
    every identifier of the entry point's embedded list. *)
Theorem steps_inline_embedded
    (a : BuildStep.Artefacts) (entryPoint : BuildStep.EntryPoint)
    (f g : string) (moduleId : string) :
  In moduleId (BuildStep.embedded entryPoint) ->
  Bundler.external (inputOptions (fesm15Options a entryPoint f)) moduleId = false /\
  Bundler.external (inputOptions (umdOptions a entryPoint g)) moduleId = false.
Proof.
  intros H%some_eq_In.
  change (Bundler.external (inputOptions (fesm15Options a entryPoint f)) moduleId)
    with (externalModuleIdStrategy moduleId (BuildStep.embedded entryPoint)).
  change (Bundler.external (inputOptions (umdOptions a entryPoint g)) moduleId)
    with (externalModuleIdStrategy moduleId (BuildStep.embedded entryPoint)).
  unfold externalModuleIdStrategy. rewrite H, orb_true_r. split; reflexivity.
Qed.

(** X18.  The entry point's override table reaches the UMD step only: its
    global-name hook returns a non-empty override, while the hook of the
    ES-module step names every identifier by the built-in rules. *)
Theorem overrides_reach_umd_only
    (a : BuildStep.Artefacts) (entryPoint : BuildStep.EntryPoint)
    (f g : string) (moduleId name : string) :
  BuildStep.umdModuleIds entryPoint !! moduleId = Some name ->
  name <> EmptyString ->
  Bundler.globals (outputOptions (umdOptions a entryPoint g)) moduleId = name /\
  Bundler.globals (outputOptions (fesm15Options a entryPoint f)) moduleId
  = umdModuleIdStrategy moduleId ∅.
Proof.
  intros Hkey Hne. split; [|reflexivity].
  change (Bundler.globals (outputOptions (umdOptions a entryPoint g)) moduleId)
    with (umdModuleIdStrategy moduleId (BuildStep.umdModuleIds entryPoint)).
  unfold umdModuleIdStrategy. rewrite (get_own _ _ _ Hkey).
  destruct name; [contradiction | reflexivity].
Qed.

End OrchestratorFacts.

(** ** More concrete runs *)

Section MoreRuns.

(** C8, amended, at the pair the POSIX counterexample shows: absolute path
    and leading slash. *)
Lemma only_the_dot_pairs_exclude_run :
  (holdTogether (path := Path.posix) 0 2 <-> dotPair 0 2 = false) /\
  (holdTogether (path := Path.win32) 0 2 <-> dotPair 0 2 = false).
Proof. apply (only_the_dot_pairs_exclude 0 2); lia. Defined.

(** An own entry hides the inherited property, also when its value is the
    empty string and so passed over. *)
Example own_entry_hides_inherited :
  umdModuleIdStrategy "constructor" {["constructor" := ""]} = "" /\
  umdModuleIdStrategy "constructor" {["constructor" := "Ctor"]} = "Ctor".
Proof. split; vm_compute; reflexivity. Qed.

(** X2 at two spellings of one set. *)
Lemma embedded_is_a_set_run :
  externalModuleIdStrategy (path := Path.posix) "moment" ["lodash"; "moment"]
  = externalModuleIdStrategy (path := Path.posix) "moment" ["moment"; "lodash"; "moment"].
Proof.
  apply (@embedded_is_a_set Path.posix "moment"
           ["lodash"; "moment"] ["moment"; "lodash"; "moment"]).
  intros x. simpl. tauto.
Defined.

(** X6 at a Windows project path. *)
Lemma drive_paths_depend_on_platform_run :
  externalModuleIdStrategy (path := Path.win32) "C:\proj\index.js" [] = false /\
  externalModuleIdStrategy (path := Path.posix) "C:\proj\index.js" [] = true.
Proof.
  apply (drive_paths_depend_on_platform "C" "\" "proj\index.js" []).
  - reflexivity.
  - reflexivity.
  - vm_compute. reflexivity.
  - intros [].
Defined.

(** X8 at the animations entry point of the browser platform. *)
Lemma platform_browser_rule_run :
  umdModuleIdStrategy "@angular/platform-browser/animations" ∅
  = "ng.platformBrowser.animations".
Proof.
  exact (platform_browser_rule "/animations" eq_refl).
Defined.

(** X9 at a package with a dash and one sub-path. *)
Lemma framework_rule_converts_one_separator_run :
  umdModuleIdStrategy "@angular/platform-server/testing" ∅
  = "ng.platform-server.testing".
Proof.
  apply (framework_rule_converts_one_separator "platform-server/testing").
  - reflexivity.
  - discriminate.
  - reflexivity.
  - simpl. lia.
Defined.

(** X10 at a package outside both namespaces, beside an unrelated
    override. *)
Lemma unknown_namespace_has_no_name_run :
  umdModuleIdStrategy "lodash-es" {["lodash" := "_"]} = "".
Proof.
  apply (unknown_namespace_has_no_name "lodash-es" {["lodash" := "_"]}).
  - apply lookup_singleton_ne. discriminate.
  - reflexivity.
  - reflexivity.
  - reflexivity.
Defined.

(** X20 at [toString], beside an unrelated override, and at [constructor]
    with the empty table. *)
Lemma inherited_property_is_returned_run :
  umdModuleIdStrategy "toString" {["lodash" := "_"]} = Inherited "toString" /\
  umdModuleIdStrategy "constructor" ∅ = Inherited "constructor".
Proof.
  split.
  - apply (inherited_property_is_returned "toString" {["lodash" := "_"]}).
    + apply lookup_singleton_ne. discriminate.
    + reflexivity.
  - apply (inherited_property_is_returned "constructor" ∅).
    + apply lookup_empty.
    + reflexivity.
Defined.

(** X12 at one segment and at a deeper path. *)
Lemma reactive_root_is_one_segment_run :
  umdModuleIdStrategy "rxjs/BehaviorSubject" ∅ = "Rx" /\
  umdModuleIdStrategy "rxjs/util/pipe" ∅ = "".
Proof.
  split.
  - exact (reactive_root_is_one_segment "BehaviorSubject"
             eq_refl eq_refl eq_refl eq_refl eq_refl eq_refl).
  - exact (reactive_root_is_one_segment "util/pipe"
             eq_refl eq_refl eq_refl eq_refl eq_refl eq_refl).
Defined.

(** X14 on the stub bundler, before the entry file exists: the debug line
    is in the log, nothing was written. *)
Lemma rollup_stops_at_failed_build_run :
  rollup (path := Path.posix) (lib := Stub.lib)
    (fesm15Options Stub.unstaged Stub.entryPoint "/tmp/stage/esm2015/foo-bar.js")
    (mkWorld (lib := Stub.lib) [] [] Stub.unstaged)
  = (Thrown "Could not resolve entry",
     mkWorld (lib := Stub.lib)
       [Log.mkEntry Log.Debug
          "rollup (v0.52.0)  to /tmp/stage/esm2015/foo-bar.js (es)"]
       [] Stub.unstaged).
Proof.
  apply (rollup_stops_at_failed_build (path := Path.posix) (lib := Stub.lib)
           (fesm15Options Stub.unstaged Stub.entryPoint "/tmp/stage/esm2015/foo-bar.js")
           (mkWorld (lib := Stub.lib) [] [] Stub.unstaged)).
  reflexivity.
Defined.

(** X17 on the stub entry point. *)
Lemma steps_inline_embedded_run :
  Bundler.external
    (inputOptions (path := Path.posix)
       (fesm15Options Stub.staged Stub.entryPoint "a.js")) "moment" = false /\
  Bundler.external
    (inputOptions (path := Path.posix)
       (umdOptions Stub.staged Stub.entryPoint "b.js")) "moment" = false.
Proof.
  apply (steps_inline_embedded (path := Path.posix)
           Stub.staged Stub.entryPoint "a.js" "b.js" "moment").
  simpl. left. reflexivity.
Defined.

(** X18 on the stub entry point. *)
Lemma overrides_reach_umd_only_run :
  Bundler.globals
    (outputOptions (umdOptions Stub.staged Stub.entryPoint "b.js")) "lodash" = "_" /\
  Bundler.globals
    (outputOptions (fesm15Options Stub.staged Stub.entryPoint "a.js")) "lodash" = "".
Proof.
  destruct (overrides_reach_umd_only Stub.staged Stub.entryPoint "a.js" "b.js"
              "lodash" "_") as [H1 H2].
  - apply lookup_singleton_eq.
  - discriminate.
  - split; [exact H1 | rewrite H2; vm_compute; reflexivity].
Defined.

(** The UMD step from end to end on the stub bundler: the log holds the
    debug line and the one diagnostic that is forwarded, the bundle went to
    the resolved path, and that path is in the artefacts. *)
Example flattenToUmd_on_stub :
  flattenToUmd (path := Path.posix) (lib := Stub.lib) (res := Stub.res)
    Stub.entryPoint (mkWorld (lib := Stub.lib) [] [] Stub.staged)
  = (Normal tt,
     mkWorld (lib := Stub.lib)
       [ Log.mkEntry Log.Debug
           "rollup (v0.52.0) /tmp/stage/esm5/foo-bar.js to /tmp/stage/bundles/foo-bar.umd.js (umd)";
         Log.mkEntry Log.Warn "'lodash' is imported by index.js" ]
       [ "/tmp/stage/bundles/foo-bar.umd.js" ]
       (setUmdBundleFile "/tmp/stage/bundles/foo-bar.umd.js" Stub.staged)).
Proof. vm_compute. reflexivity. Qed.

End MoreRuns.
